(** * CueInstance API types (api/v1alpha1): timeout resolution, status commits

    A shallow embedding of [api/v1alpha1/cueinstance_types.go] and the
    properties of its accessors ([GetTimeout], [GetRetryInterval]) and of
    its status helpers ([SetCueInstanceReadiness], [CueInstanceNotReady],
    [CueInstanceNotReadyInventory], [CueInstanceReadyInventory],
    [trimString]).

    Conventions of the embedding:
    - a Go [string] is a byte string: [String.string], whose [String.length]
      counts bytes exactly as Go's [len];
    - [int], [int64] and [time.Duration] values are [Z]; the only arithmetic
      the file performs on them is one [time.Duration] subtraction, whose
      two's-complement wrap-around is written out ([time.sub]);
    - a pointer that is only tested against [nil] and read is an [option];
    - a run-time panic is [None] in the [option] monad;
    - the wall clock read by the condition helper is an explicit argument;
    - the status helpers receive the object by value and return the updated
      copy: each is a function from the object to the object it returns. *)

From Stdlib Require Import ZArith Lia.
From stdpp Require Import base option list strings.
From stdpp Require Import gmap.

Local Open Scope Z_scope.

(** ** Package [time] *)

Module time.

(** [type Duration int64], a count of nanoseconds. *)
Definition Duration : Type := Z.

Definition min_int64 : Z := - 2 ^ 63.
Definition max_int64 : Z := 2 ^ 63 - 1.

Definition in_int64 (z : Z) : Prop := min_int64 <= z <= max_int64.

(** Reduction of a mathematical integer to the [int64] it is stored as. *)
Definition wrap64 (z : Z) : Z := (z + 2 ^ 63) mod 2 ^ 64 - 2 ^ 63.

Definition Nanosecond : Duration := 1.
Definition Microsecond : Duration := 1000 * Nanosecond.
Definition Millisecond : Duration := 1000 * Microsecond.
Definition Second : Duration := 1000 * Millisecond.

(** [a - b] on two [Duration]s. *)
Definition sub (a b : Duration) : Duration := wrap64 (a - b).

(** A [time.Time] as the instant it denotes. *)
Definition Time : Type := Z.

End time.

(** ** Package [metav1] (k8s.io/apimachinery/pkg/apis/meta/v1) *)

Module metav1.

(** [type Duration struct { time.Duration }] *)
Record Duration : Type := mkDuration { Duration_ : time.Duration }.

(** [type ConditionStatus string] with its three constants. *)
Inductive ConditionStatus : Type :=
| ConditionTrue
| ConditionFalse
| ConditionUnknown.

#[global] Instance ConditionStatus_eq_dec : EqDecision ConditionStatus.
Proof. solve_decision. Defined.

(** [type Time struct { time.Time }]; [None] is the zero value, the one
    [IsZero] answers [true] on. *)
Definition Time : Type := option time.Time.

Definition IsZero (t : Time) : bool :=
  match t with
  | None => true
  | Some _ => false
  end.

Definition NewTime (t : time.Time) : Time := Some t.

Record Condition : Type := mkCondition {
  Type_ : string;
  Status_ : ConditionStatus;
  ObservedGeneration_ : Z;
  LastTransitionTime : Time;
  Reason : string;
  Message : string
}.

End metav1.

(** ** Package [v1alpha1]: data model *)

(** [type ValidationMode string] and its four constants. *)
Inductive ValidationMode : Type :=
| IgnorePolicy
| AuditPolicy
| DropPolicy
| FailPolicy.

Definition CueInstanceKind : string := "CueInstance".
Definition CueInstanceFinalizer : string := "finalizers.fluxcd.io".
Definition MaxConditionMessageLength : Z := 20000.
Definition DisabledValue : string := "disabled".

Record TagVar : Type := mkTagVar {
  TagVar_Name : string;
  TagVar_Value : string
}.

Record Validation : Type := mkValidation {
  Validation_Mode : ValidationMode;
  Validation_Schema : string;
  Validation_Type : string
}.

(** [CueInstanceSpec]. The fields [SourceRef], [DependsOn] and [KubeConfig]
    have types declared in other packages or files; no function of this
    file reads them and they are left out of the record. *)
Record CueInstanceSpec : Type := mkCueInstanceSpec {
  Interval : metav1.Duration;
  Root : string;
  Path : string;
  Package : string;
  Tags : list TagVar;
  TagVars : list TagVar;
  Exprs : list string;
  Prune : bool;
  RetryInterval : option metav1.Duration;
  Timeout : option metav1.Duration;
  Suspend : bool;
  ServiceAccountName : string;
  Force : bool;
  Validate : option Validation
}.

(** Modelled from the spec: [ResourceRef] and [ResourceInventory] are
    declared in a file of the package that is not at hand; the generated
    deep copy shows a flat [ResourceRef] and a [ResourceInventory] holding
    [Entries []ResourceRef], and the specification lists the identity tuple
    (group, version, kind, namespace, name). *)
Record ResourceRef : Type := mkResourceRef {
  Ref_Group : string;
  Ref_Version : string;
  Ref_Kind : string;
  Ref_Namespace : string;
  Ref_Name : string
}.

Record ResourceInventory : Type := mkResourceInventory {
  Entries : list ResourceRef
}.

(** [CueInstanceStatus]; the embedded [meta.ReconcileRequestStatus] is its
    single field [LastHandledReconcileAt]. *)
Record CueInstanceStatus : Type := mkCueInstanceStatus {
  LastHandledReconcileAt : string;
  ObservedGeneration : Z;
  Conditions : list metav1.Condition;
  LastAppliedRevision : string;
  LastAttemptedRevision : string;
  Inventory : option ResourceInventory
}.

(** [CueInstance]: of the embedded [TypeMeta] and [ObjectMeta] the record
    keeps the identity and the generation. *)
Record CueInstance : Type := mkCueInstance {
  Namespace : string;
  Name : string;
  Generation : Z;
  Spec : CueInstanceSpec;
  Status : CueInstanceStatus
}.

(** Field assignments [k.Status.F = v]. *)
Definition with_Status (st : CueInstanceStatus) (k : CueInstance) : CueInstance :=
  mkCueInstance (Namespace k) (Name k) (Generation k) (Spec k) st.

Definition set_ObservedGeneration (g : Z) (st : CueInstanceStatus) : CueInstanceStatus :=
  mkCueInstanceStatus (LastHandledReconcileAt st) g (Conditions st)
    (LastAppliedRevision st) (LastAttemptedRevision st) (Inventory st).

Definition set_Conditions (cs : list metav1.Condition) (st : CueInstanceStatus)
  : CueInstanceStatus :=
  mkCueInstanceStatus (LastHandledReconcileAt st) (ObservedGeneration st) cs
    (LastAppliedRevision st) (LastAttemptedRevision st) (Inventory st).

Definition set_LastAppliedRevision (r : string) (st : CueInstanceStatus)
  : CueInstanceStatus :=
  mkCueInstanceStatus (LastHandledReconcileAt st) (ObservedGeneration st)
    (Conditions st) r (LastAttemptedRevision st) (Inventory st).

Definition set_LastAttemptedRevision (r : string) (st : CueInstanceStatus)
  : CueInstanceStatus :=
  mkCueInstanceStatus (LastHandledReconcileAt st) (ObservedGeneration st)
    (Conditions st) (LastAppliedRevision st) r (Inventory st).

Definition set_Inventory (inv : option ResourceInventory) (st : CueInstanceStatus)
  : CueInstanceStatus :=
  mkCueInstanceStatus (LastHandledReconcileAt st) (ObservedGeneration st)
    (Conditions st) (LastAppliedRevision st) (LastAttemptedRevision st) inv.

(** ** Accessors *)

(** [GetTimeout] returns the timeout. *)
Definition GetTimeout (k : CueInstance) : time.Duration :=
  let duration :=
    time.sub (metav1.Duration_ (Interval (Spec k))) (30 * time.Second) in
  let duration :=
    match Timeout (Spec k) with
    | Some t => metav1.Duration_ t
    | None => duration
    end in
  if duration <? 30 * time.Second then 30 * time.Second else duration.

(** [GetRetryInterval] returns the retry interval. *)
Definition GetRetryInterval (k : CueInstance) : time.Duration :=
  match RetryInterval (Spec k) with
  | Some r => metav1.Duration_ r
  | None => metav1.Duration_ (Interval (Spec k))
  end.

(** [GetStatusConditions] returns a pointer to the [Status.Conditions]
    slice: the read through it, and the write through it. *)
Definition GetStatusConditions (k : CueInstance) : list metav1.Condition :=
  Conditions (Status k).

Definition store_StatusConditions (cs : list metav1.Condition) (k : CueInstance)
  : CueInstance :=
  with_Status (set_Conditions cs (Status k)) k.

(** The interface [meta.ObjectWithStatusConditions]: its one method hands
    out a pointer to the conditions slice, through which the slice is read
    and replaced. *)
Class ObjectWithStatusConditions (T : Type) : Type := {
  conditions_load : T -> list metav1.Condition;
  conditions_store : list metav1.Condition -> T -> T
}.

#[global] Instance CueInstance_conditions : ObjectWithStatusConditions CueInstance := {
  conditions_load := GetStatusConditions;
  conditions_store := store_StatusConditions
}.

(** ** Package [apimeta] (k8s.io/apimachinery/pkg/api/meta) *)

Module apimeta.

(** Modelled from the spec: [FindStatusCondition] belongs to an imported
    library whose source is not part of this repository. It returns a
    pointer to the first condition of the given type, here the index of the
    element together with its value, or [nil]. *)
Definition FindStatusCondition (conditions : list metav1.Condition)
  (conditionType : string) : option (nat * metav1.Condition) :=
  list_find (λ c, metav1.Type_ c = conditionType) conditions.

(** Modelled from the spec: [SetStatusCondition] belongs to the same
    imported library. A condition of a type not yet present is appended,
    stamped with the current time when it carries none; a present one is
    updated in place: status and transition time when the status changes,
    then reason, message and observed generation always. The specification
    relies on it for the single distinguished Ready condition with its
    reason and message (sections 3 and 4.8). Its guard against a [nil]
    pointer to the slice has no counterpart: [GetStatusConditions] returns
    the address of a field. *)
Definition SetStatusCondition (conditions : list metav1.Condition)
  (newCondition : metav1.Condition) (now : time.Time) : list metav1.Condition :=
  match FindStatusCondition conditions (metav1.Type_ newCondition) with
  | None =>
      let stamp :=
        if metav1.IsZero (metav1.LastTransitionTime newCondition)
        then metav1.NewTime now
        else metav1.LastTransitionTime newCondition in
      conditions ++
        [metav1.mkCondition (metav1.Type_ newCondition) (metav1.Status_ newCondition)
           (metav1.ObservedGeneration_ newCondition) stamp
           (metav1.Reason newCondition) (metav1.Message newCondition)]
  | Some (i, existingCondition) =>
      let '(status, stamp) :=
        if decide (metav1.Status_ existingCondition ≠ metav1.Status_ newCondition)
        then (metav1.Status_ newCondition,
              if negb (metav1.IsZero (metav1.LastTransitionTime newCondition))
              then metav1.LastTransitionTime newCondition
              else metav1.NewTime now)
        else (metav1.Status_ existingCondition,
              metav1.LastTransitionTime existingCondition) in
      <[i := metav1.mkCondition (metav1.Type_ existingCondition) status
               (metav1.ObservedGeneration_ newCondition) stamp
               (metav1.Reason newCondition) (metav1.Message newCondition)]>
        conditions
  end.

End apimeta.

(** ** Package [meta] (github.com/fluxcd/pkg/apis/meta) *)

Module meta.

Definition ReadyCondition : string := "Ready".
Definition ProgressingReason : string := "Progressing".

(** Modelled from the spec: [SetResourceCondition] belongs to an imported
    library whose source is not part of this repository. It builds a
    condition of the given type, status, reason and message, every other
    field zero, and sets it on the conditions of the object. *)
Definition SetResourceCondition {T : Type} `{ObjectWithStatusConditions T}
  (obj : T) (condition : string) (status : metav1.ConditionStatus)
  (reason message : string) (now : time.Time) : T :=
  let conditions := conditions_load obj in
  let newCondition :=
    metav1.mkCondition condition status 0 None reason message in
  conditions_store (apimeta.SetStatusCondition conditions newCondition now) obj.

End meta.

(** ** Status helpers *)

(** The slice expression [str[lo:hi]] of a string: it panics unless
    [0 <= lo <= hi <= len(str)]. *)
Definition slice (str : string) (lo hi : Z) : option string :=
  if (0 <=? lo) && (lo <=? hi) && (hi <=? Z.of_nat (String.length str))
  then Some (String.substring (Z.to_nat lo) (Z.to_nat (hi - lo)) str)
  else None.

Definition trimString (str : string) (limit : Z) : option string :=
  if Z.of_nat (String.length str) <=? limit then Some str
  else s ← slice str 0 limit; Some (s +:+ "...").

(** [CueInstanceProgressing] sets the Ready condition of the given
    [CueInstance] to status [ConditionUnknown]. *)
Definition CueInstanceProgressing (k : CueInstance) (message : string)
  (now : time.Time) : CueInstance :=
  meta.SetResourceCondition k meta.ReadyCondition metav1.ConditionUnknown
    meta.ProgressingReason message now.

(** [SetCueInstanceReadiness] sets the ReadyCondition, ObservedGeneration,
    and LastAttemptedRevision, on the [CueInstance]. *)
Definition SetCueInstanceReadiness (k : CueInstance)
  (status : metav1.ConditionStatus) (reason message revision : string)
  (now : time.Time) : option CueInstance :=
  msg ← trimString message MaxConditionMessageLength;
  let k := meta.SetResourceCondition k meta.ReadyCondition status reason msg now in
  let k := with_Status (set_ObservedGeneration (Generation k) (Status k)) k in
  let k := with_Status (set_LastAttemptedRevision revision (Status k)) k in
  Some k.

(** [CueInstanceNotReady] registers a failed apply attempt of the given
    [CueInstance]. *)
Definition CueInstanceNotReady (k : CueInstance)
  (revision reason message : string) (now : time.Time) : option CueInstance :=
  msg ← trimString message MaxConditionMessageLength;
  k ← SetCueInstanceReadiness k metav1.ConditionFalse reason msg revision now;
  let k :=
    if decide (revision ≠ "")
    then with_Status (set_LastAttemptedRevision revision (Status k)) k
    else k in
  Some k.

(** [CueInstanceNotReadyInventory] registers a failed apply attempt of the
    given [CueInstance]. *)
Definition CueInstanceNotReadyInventory (k : CueInstance)
  (inventory : option ResourceInventory) (revision reason message : string)
  (now : time.Time) : option CueInstance :=
  msg ← trimString message MaxConditionMessageLength;
  k ← SetCueInstanceReadiness k metav1.ConditionFalse reason msg revision now;
  let k :=
    if decide (revision ≠ "")
    then with_Status (set_LastAttemptedRevision revision (Status k)) k
    else k in
  let k := with_Status (set_Inventory inventory (Status k)) k in
  Some k.

(** [CueInstanceReadyInventory] registers a successful apply attempt of the
    given [CueInstance]. *)
Definition CueInstanceReadyInventory (k : CueInstance)
  (inventory : option ResourceInventory) (revision reason message : string)
  (now : time.Time) : option CueInstance :=
  msg ← trimString message MaxConditionMessageLength;
  k ← SetCueInstanceReadiness k metav1.ConditionTrue reason msg revision now;
  let k := with_Status (set_Inventory inventory (Status k)) k in
  let k := with_Status (set_LastAppliedRevision revision (Status k)) k in
  Some k.

(** ** Observations on a status *)

(** The Ready condition of an object, when it has one. *)
Definition ReadyOf (k : CueInstance) : option metav1.Condition :=
  snd <$> apimeta.FindStatusCondition (Conditions (Status k)) meta.ReadyCondition.

(** The message stored in the Ready condition. *)
Definition ReadyMessage (k : CueInstance) : option string :=
  metav1.Message <$> ReadyOf k.

(** A string of [n] copies of one byte, for examples of long messages. *)
Fixpoint replicate_byte (n : nat) (a : Ascii.ascii) : string :=
  match n with
  | O => EmptyString
  | S n' => String a (replicate_byte n' a)
  end.

(** The stored message as the specification words it: the string itself
    up to the cap, otherwise its first [MaxConditionMessageLength] bytes
    followed by the ellipsis marker. *)
Definition message_as_specified (message : string) : string :=
  if Z.of_nat (String.length message) <=? 20000 then message
  else String.substring 0 (Z.to_nat 20000) message +:+ "...".

(** What a readiness commit with the given status, reason, stored message
    and revision leaves behind, relative to the object [k] it started
    from; the two fields [LastAppliedRevision] and [Inventory] are left to
    each helper. *)
Record readiness_committed (k : CueInstance) (status : metav1.ConditionStatus)
  (reason msg revision : string) (k' : CueInstance) : Prop := {
  rc_generation : Generation k' = Generation k;
  rc_spec : Spec k' = Spec k;
  rc_observed : ObservedGeneration (Status k') = Generation k;
  rc_attempted : LastAttemptedRevision (Status k') = revision;
  rc_ready :
    exists c, ReadyOf k' = Some c /\ metav1.Status_ c = status /\
              metav1.Reason c = reason /\ metav1.Message c = msg
}.

(** ** Generated deep copies ([zz_generated.deepcopy.go])

    The deep copies work on pointers, so they are embedded over an
    explicit store: typed heaps of [ResourceRef] cells, of
    [ResourceInventory] cells and of the backing arrays of
    [[]ResourceRef] slices. A pointer is an [option]: [None] is [nil];
    dereferencing [nil] panics. *)

Definition loc : Type := positive.

(** A slice header: backing array, offset of the first element, length
    and capacity. The [nil] slice is [None] at type [option Slice]. *)
Record Slice : Type := mkSlice {
  s_array : loc;
  s_off : nat;
  s_len : nat;
  s_cap : nat
}.

(** A [ResourceInventory] in memory: its field [Entries] is a slice. *)
Record InventoryCell : Type := mkInventoryCell {
  c_Entries : option Slice
}.

(** A [*ResourceRef] points to a cell of its own or to an element of a
    backing array. *)
Inductive RefPtr : Type :=
| RefCell (l : loc)
| RefElem (a : loc) (i : nat).

Record Heap : Type := mkHeap {
  refs : gmap loc ResourceRef;
  inventories : gmap loc InventoryCell;
  arrays : gmap loc (list ResourceRef)
}.

Definition set_refs (m : gmap loc ResourceRef) (h : Heap) : Heap :=
  mkHeap m (inventories h) (arrays h).

Definition set_inventories (m : gmap loc InventoryCell) (h : Heap) : Heap :=
  mkHeap (refs h) m (arrays h).

Definition set_arrays (m : gmap loc (list ResourceRef)) (h : Heap) : Heap :=
  mkHeap (refs h) (inventories h) m.

(** The zero values. *)
Definition zero_ResourceRef : ResourceRef := mkResourceRef "" "" "" "" "".
Definition zero_InventoryCell : InventoryCell := mkInventoryCell None.

(** [*p] for [p *ResourceRef]. *)
Definition load_ref (p : option RefPtr) (h : Heap) : option ResourceRef :=
  match p with
  | None => None
  | Some (RefCell l) => refs h !! l
  | Some (RefElem a i) => arr ← arrays h !! a; arr !! i
  end.

(** [*p = v] for [p *ResourceRef]. *)
Definition store_ref (p : option RefPtr) (v : ResourceRef) (h : Heap)
  : option Heap :=
  match p with
  | None => None
  | Some (RefCell l) =>
      _ ← refs h !! l; Some (set_refs (<[l := v]> (refs h)) h)
  | Some (RefElem a i) =>
      arr ← arrays h !! a;
      _ ← arr !! i;
      Some (set_arrays (<[a := <[i := v]> arr]> (arrays h)) h)
  end.

(** [new(ResourceRef)] *)
Definition new_ResourceRef (h : Heap) : loc * Heap :=
  let l := fresh (dom (refs h)) in
  (l, set_refs (<[l := zero_ResourceRef]> (refs h)) h).

(** [*p] and [*p = c] for [p *ResourceInventory]. *)
Definition load_inventory (p : option loc) (h : Heap) : option InventoryCell :=
  l ← p; inventories h !! l.

Definition store_inventory (p : option loc) (c : InventoryCell) (h : Heap)
  : option Heap :=
  l ← p; _ ← inventories h !! l;
  Some (set_inventories (<[l := c]> (inventories h)) h).

(** [new(ResourceInventory)] *)
Definition new_ResourceInventory (h : Heap) : loc * Heap :=
  let l := fresh (dom (inventories h)) in
  (l, set_inventories (<[l := zero_InventoryCell]> (inventories h)) h).

(** [p.Entries] and [p.Entries = s], also through [&p.Entries]. *)
Definition load_Entries (p : option loc) (h : Heap) : option (option Slice) :=
  c_Entries <$> load_inventory p h.

Definition store_Entries (p : option loc) (s : option Slice) (h : Heap)
  : option Heap :=
  store_inventory p (mkInventoryCell s) h.

(** [len(s)] *)
Definition slice_len (s : option Slice) : nat :=
  match s with
  | None => 0%nat
  | Some sl => s_len sl
  end.

(** [make([]ResourceRef, n)]: a fresh backing array of [n] zero values. *)
Definition make_slice (n : nat) (h : Heap) : Slice * Heap :=
  let a := fresh (dom (arrays h)) in
  (mkSlice a 0 n n,
   set_arrays (<[a := replicate n zero_ResourceRef]> (arrays h)) h).

(** [copy(dst, src)]: the first [min(len(dst), len(src))] elements of
    [src] are read, then written over the first elements of [dst]; the
    number copied is returned. *)
Definition copy_slice (dst src : option Slice) (h : Heap) : option (nat * Heap) :=
  match dst, src with
  | Some d, Some sl =>
      let n := Nat.min (s_len d) (s_len sl) in
      from ← arrays h !! s_array sl;
      let vals := take n (drop (s_off sl) from) in
      to ← arrays h !! s_array d;
      let to' := take (s_off d) to ++ vals ++ drop (s_off d + n) to in
      Some (n, set_arrays (<[s_array d := to']> (arrays h)) h)
  | _, _ => Some (0%nat, h)
  end.

(** [s[i] = v] *)
Definition store_elem (s : option Slice) (i : nat) (v : ResourceRef) (h : Heap)
  : option Heap :=
  sl ← s;
  if decide (i < s_len sl)%nat
  then store_ref (Some (RefElem (s_array sl) (s_off sl + i))) v h
  else None.

(** [ResourceRef.DeepCopyInto] *)
Definition ResourceRef_DeepCopyInto (in_ out : option RefPtr) (h : Heap)
  : option Heap :=
  v ← load_ref in_ h;
  store_ref out v h.

(** [ResourceRef.DeepCopy] *)
Definition ResourceRef_DeepCopy (in_ : option RefPtr) (h : Heap)
  : option (option RefPtr * Heap) :=
  match in_ with
  | None => Some (None, h)
  | Some _ =>
      let '(out, h) := new_ResourceRef h in
      h ← ResourceRef_DeepCopyInto in_ (Some (RefCell out)) h;
      Some (Some (RefCell out), h)
  end.

(** [ResourceInventory.DeepCopyInto] *)
Definition ResourceInventory_DeepCopyInto (in_ out : option loc) (h : Heap)
  : option Heap :=
  c ← load_inventory in_ h;
  h ← store_inventory out c h;
  entries ← load_Entries in_ h;
  match entries with
  | None => Some h
  | Some _ =>
      src ← load_Entries in_ h;
      let '(fresh_slice, h) := make_slice (slice_len src) h in
      h ← store_Entries out (Some fresh_slice) h;
      dst ← load_Entries out h;
      src ← load_Entries in_ h;
      '(_, h) ← copy_slice dst src h;
      Some h
  end.

(** [ResourceInventory.DeepCopy] *)
Definition ResourceInventory_DeepCopy (in_ : option loc) (h : Heap)
  : option (option loc * Heap) :=
  match in_ with
  | None => Some (None, h)
  | Some _ =>
      let '(out, h) := new_ResourceInventory h in
      h ← ResourceInventory_DeepCopyInto in_ (Some out) h;
      Some (Some out, h)
  end.

(** A slice header is well formed in a store when its window lies within
    its backing array. *)
Definition slice_ok (h : Heap) (s : Slice) : Prop :=
  exists arr, arrays h !! s_array s = Some arr /\
    (s_len s <= s_cap s)%nat /\ (s_off s + s_cap s <= length arr)%nat.

Definition entries_ok (h : Heap) (c : InventoryCell) : Prop :=
  match c_Entries c with
  | None => True
  | Some s => slice_ok h s
  end.

(** A store is well formed when every inventory in it has well formed
    entries. *)
Definition heap_ok (h : Heap) : Prop :=
  forall l c, inventories h !! l = Some c -> entries_ok h c.

(** The elements a slice shows. *)
Definition slice_elems (s : option Slice) (h : Heap) : option (list ResourceRef) :=
  match s with
  | None => Some []
  | Some sl => arr ← arrays h !! s_array sl; Some (take (s_len sl) (drop (s_off sl) arr))
  end.

(** The [ResourceInventory] a pointer leads to, as a value. *)
Definition inventory_at (p : option loc) (h : Heap) : option ResourceInventory :=
  c ← load_inventory p h;
  es ← slice_elems (c_Entries c) h;
  Some (mkResourceInventory es).

(** The part of an object no status helper writes: the identity, the
    generation, the [Spec] and the embedded [ReconcileRequestStatus]. *)
Record outside_kept (k k' : CueInstance) : Prop := {
  ok_namespace : Namespace k' = Namespace k;
  ok_name : Name k' = Name k;
  ok_generation : Generation k' = Generation k;
  ok_spec : Spec k' = Spec k;
  ok_handled :
    LastHandledReconcileAt (Status k') = LastHandledReconcileAt (Status k)
}.

(** The conditions of a type other than Ready, in their order. *)
Definition other_conditions (k : CueInstance) : list metav1.Condition :=
  filter (λ c, metav1.Type_ c ≠ meta.ReadyCondition) (Conditions (Status k)).

(** ** Sample objects *)

Definition sample_spec : CueInstanceSpec :=
  mkCueInstanceSpec (metav1.mkDuration (300 * time.Second))
    "" "" "" [] [] [] true None None false "" false None.

Definition sample_status : CueInstanceStatus :=
  mkCueInstanceStatus "" 1 [] "main/aaa" "main/bbb" None.

Definition sample_instance : CueInstance :=
  mkCueInstance "default" "demo" 2 sample_spec sample_status.

(** The sample with [Spec.Timeout] set to ten seconds. *)
Definition short_timeout_instance : CueInstance :=
  mkCueInstance "default" "demo" 2
    (mkCueInstanceSpec (metav1.mkDuration (300 * time.Second))
       "" "" "" [] [] [] true None (Some (metav1.mkDuration (10 * time.Second)))
       false "" false None)
    sample_status.

(** The sample with [Spec.RetryInterval] set to one minute. *)
Definition retry_instance : CueInstance :=
  mkCueInstance "default" "demo" 2
    (mkCueInstanceSpec (metav1.mkDuration (300 * time.Second))
       "" "" "" [] [] [] true (Some (metav1.mkDuration (60 * time.Second))) None
       false "" false None)
    sample_status.

Definition sample_inventory : ResourceInventory :=
  mkResourceInventory [mkResourceRef "apps" "v1" "Deployment" "default" "web"].

(** A message one byte longer than the cap. *)
Definition long_message : string := replicate_byte (Z.to_nat 20001) (Ascii.ascii_of_nat 97).

(** A store holding one inventory of two entries at address 1, over the
    backing array at address 1. *)
Definition sample_ref_a : ResourceRef :=
  mkResourceRef "apps" "v1" "Deployment" "default" "web".

Definition sample_ref_b : ResourceRef :=
  mkResourceRef "" "v1" "Service" "default" "web".

Definition sample_heap : Heap :=
  mkHeap ∅
    {[ 1%positive := mkInventoryCell (Some (mkSlice 1%positive 0 2 2)) ]}
    {[ 1%positive := [sample_ref_a; sample_ref_b] ]}.

(** * Properties *)

(** ** Strings *)

Lemma string_length_app (s t : string) :
  String.length (s +:+ t) = (String.length s + String.length t)%nat.
Proof.
  induction s as [|a s IH]; simpl; [reflexivity|].
  now rewrite IH.
Qed.

Lemma substring_0_length (n : nat) (s : string) :
  (n <= String.length s)%nat -> String.length (String.substring 0 n s) = n.
Proof.
  revert s; induction n as [|n IH]; intros [|a s] Hn; simpl in *;
    try reflexivity; try lia.
  rewrite IH; [reflexivity | lia].
Qed.

Lemma substring_0_app (n : nat) (s t : string) :
  (n <= String.length s)%nat ->
  String.substring 0 n (s +:+ t) = String.substring 0 n s.
Proof.
  revert s; induction n as [|n IH]; intros [|a s] Hn; simpl in *;
    try reflexivity; try lia.
  - now destruct t.
  - rewrite IH; [reflexivity | lia].
Qed.

Lemma substring_0_twice (n : nat) (s : string) :
  String.substring 0 n (String.substring 0 n s) = String.substring 0 n s.
Proof.
  revert s; induction n as [|n IH]; intros [|a s]; simpl; try reflexivity.
  now rewrite IH.
Qed.

(** ** [trimString] *)

Lemma slice_prefix (str : string) (limit : Z) :
  0 <= limit <= Z.of_nat (String.length str) ->
  slice str 0 limit = Some (String.substring 0 (Z.to_nat limit) str).
Proof.
  intros [H0 H1]. unfold slice.
  rewrite Z.sub_0_r.
  rewrite (proj2 (Z.leb_le 0 0)) by lia.
  rewrite (proj2 (Z.leb_le 0 limit)) by lia.
  rewrite (proj2 (Z.leb_le limit _)) by lia.
  reflexivity.
Qed.

Lemma trimString_short (str : string) (limit : Z) :
  Z.of_nat (String.length str) <= limit -> trimString str limit = Some str.
Proof.
  intros H. unfold trimString.
  now rewrite (proj2 (Z.leb_le _ _)) by lia.
Qed.

Lemma trimString_long (str : string) (limit : Z) :
  0 <= limit < Z.of_nat (String.length str) ->
  trimString str limit =
    Some (String.substring 0 (Z.to_nat limit) str +:+ "...").
Proof.
  intros H. unfold trimString.
  rewrite (proj2 (Z.leb_gt _ _)) by lia.
  rewrite slice_prefix by lia. reflexivity.
Qed.

Lemma trimString_long_length (str : string) (limit : Z) :
  0 <= limit < Z.of_nat (String.length str) ->
  String.length (String.substring 0 (Z.to_nat limit) str +:+ "...")
  = Z.to_nat (limit + 3).
Proof.
  intros H. rewrite string_length_app, substring_0_length by lia.
  simpl. lia.
Qed.

Lemma trimString_fixed (str t : string) (limit : Z) :
  0 <= limit -> trimString str limit = Some t -> trimString t limit = Some t.
Proof.
  intros Hl Ht.
  destruct (Z_le_gt_dec (Z.of_nat (String.length str)) limit) as [Hs | Hs].
  - rewrite trimString_short in Ht by lia. inversion Ht; subst.
    apply trimString_short; lia.
  - rewrite trimString_long in Ht by lia. inversion Ht; subst; clear Ht.
    rewrite trimString_long.
    + rewrite substring_0_app by (rewrite substring_0_length; lia).
      now rewrite substring_0_twice.
    + rewrite trimString_long_length by lia. lia.
Qed.

Lemma trimString_cap (message : string) :
  trimString message MaxConditionMessageLength
  = Some (message_as_specified message).
Proof.
  unfold message_as_specified, MaxConditionMessageLength.
  destruct (Z.leb_spec (Z.of_nat (String.length message)) 20000) as [H | H].
  - now apply trimString_short.
  - now apply trimString_long.
Qed.

Lemma trimString_cap_twice (message : string) :
  trimString (message_as_specified message) MaxConditionMessageLength
  = Some (message_as_specified message).
Proof.
  apply (trimString_fixed message); [unfold MaxConditionMessageLength; lia|].
  apply trimString_cap.
Qed.

Lemma message_as_specified_twice (message : string) :
  message_as_specified (message_as_specified message)
  = message_as_specified message.
Proof.
  pose proof (trimString_cap (message_as_specified message)) as H1.
  rewrite trimString_cap_twice in H1. now inversion H1.
Qed.

(** ** The condition helpers *)

Lemma SetStatusCondition_find (cs : list metav1.Condition)
  (c : metav1.Condition) (now : time.Time) :
  exists i e,
    apimeta.FindStatusCondition (apimeta.SetStatusCondition cs c now)
      (metav1.Type_ c) = Some (i, e) /\
    metav1.Status_ e = metav1.Status_ c /\
    metav1.Reason e = metav1.Reason c /\
    metav1.Message e = metav1.Message c.
Proof.
  unfold apimeta.SetStatusCondition, apimeta.FindStatusCondition.
  destruct (list_find _ cs) as [[i e]|] eqn:E.
  - apply list_find_Some in E as (Hl & HP & Hleast).
    destruct (decide (metav1.Status_ e ≠ metav1.Status_ c)) as [Hne | Heq].
    + eexists i, _. split.
      * apply list_find_insert_Some. right; left.
        split_and!; [reflexivity | reflexivity | | exact HP | exact Hleast].
        eauto using lookup_lt_Some.
      * simpl. auto.
    + eexists i, _. split.
      * apply list_find_insert_Some. right; left.
        split_and!; [reflexivity | reflexivity | | exact HP | exact Hleast].
        eauto using lookup_lt_Some.
      * simpl. split_and!; auto. now apply dec_stable.
  - rewrite list_find_app_r by exact E. simpl.
    rewrite decide_True by reflexivity. simpl.
    eexists _, _. split; [reflexivity|]. simpl; auto.
Qed.

Lemma SetResourceCondition_ready (k : CueInstance)
  (status : metav1.ConditionStatus) (reason message : string)
  (now : time.Time) :
  exists c,
    ReadyOf (meta.SetResourceCondition k meta.ReadyCondition status reason
               message now) = Some c /\
    metav1.Status_ c = status /\ metav1.Reason c = reason /\
    metav1.Message c = message.
Proof.
  unfold ReadyOf, meta.SetResourceCondition. simpl.
  destruct (SetStatusCondition_find (GetStatusConditions k)
              (metav1.mkCondition meta.ReadyCondition status 0 None reason message)
              now) as (i & e & Hf & Hs & Hr & Hm).
  simpl in Hf. rewrite Hf. simpl. eauto.
Qed.

(** ** The status helpers *)

Lemma SetCueInstanceReadiness_run (k : CueInstance)
  (status : metav1.ConditionStatus) (reason message revision : string)
  (now : time.Time) :
  exists k',
    SetCueInstanceReadiness k status reason message revision now = Some k' /\
    readiness_committed k status reason (message_as_specified message)
      revision k' /\
    LastAppliedRevision (Status k') = LastAppliedRevision (Status k) /\
    Inventory (Status k') = Inventory (Status k).
Proof.
  unfold SetCueInstanceReadiness. rewrite trimString_cap. simpl.
  eexists. split; [reflexivity|].
  split; [|split; reflexivity].
  constructor; try reflexivity.
  apply (SetResourceCondition_ready k status reason
           (message_as_specified message) now).
Qed.

(** The guarded second assignment of [CueInstanceNotReady] repeats what
    [SetCueInstanceReadiness] has done, and the message it trims first is
    trimmed to the same string again: the helper is
    [SetCueInstanceReadiness] at status [ConditionFalse]. *)
Lemma CueInstanceNotReady_unfold (k : CueInstance)
  (revision reason message : string) (now : time.Time) :
  CueInstanceNotReady k revision reason message now
  = SetCueInstanceReadiness k metav1.ConditionFalse reason message revision now.
Proof.
  unfold CueInstanceNotReady, SetCueInstanceReadiness.
  rewrite trimString_cap. simpl. rewrite trimString_cap_twice. simpl.
  destruct (decide (revision ≠ "")); reflexivity.
Qed.

Lemma CueInstanceNotReadyInventory_unfold (k : CueInstance)
  (inventory : option ResourceInventory) (revision reason message : string)
  (now : time.Time) :
  CueInstanceNotReadyInventory k inventory revision reason message now
  = k1 ← SetCueInstanceReadiness k metav1.ConditionFalse reason message
           revision now;
    Some (with_Status (set_Inventory inventory (Status k1)) k1).
Proof.
  unfold CueInstanceNotReadyInventory, SetCueInstanceReadiness.
  rewrite trimString_cap. simpl. rewrite trimString_cap_twice. simpl.
  destruct (decide (revision ≠ "")); reflexivity.
Qed.

Lemma CueInstanceReadyInventory_unfold (k : CueInstance)
  (inventory : option ResourceInventory) (revision reason message : string)
  (now : time.Time) :
  CueInstanceReadyInventory k inventory revision reason message now
  = k1 ← SetCueInstanceReadiness k metav1.ConditionTrue reason message
           revision now;
    Some (with_Status
            (set_LastAppliedRevision revision
               (set_Inventory inventory (Status k1))) k1).
Proof.
  unfold CueInstanceReadyInventory, SetCueInstanceReadiness.
  rewrite trimString_cap. simpl. rewrite trimString_cap_twice. reflexivity.
Qed.

Lemma readiness_committed_frame (k : CueInstance)
  (status : metav1.ConditionStatus) (reason msg revision : string)
  (k1 : CueInstance) (st : CueInstanceStatus) :
  readiness_committed k status reason msg revision k1 ->
  ObservedGeneration st = ObservedGeneration (Status k1) ->
  LastAttemptedRevision st = LastAttemptedRevision (Status k1) ->
  Conditions st = Conditions (Status k1) ->
  readiness_committed k status reason msg revision (with_Status st k1).
Proof.
  intros [Hg Hs Ho Ha Hr] Eo Ea Ec.
  constructor; simpl; try congruence.
  unfold ReadyOf in *. simpl. now rewrite Ec.
Qed.

Lemma CueInstanceNotReady_run (k : CueInstance)
  (revision reason message : string) (now : time.Time) :
  exists k',
    CueInstanceNotReady k revision reason message now = Some k' /\
    readiness_committed k metav1.ConditionFalse reason
      (message_as_specified message) revision k' /\
    LastAppliedRevision (Status k') = LastAppliedRevision (Status k) /\
    Inventory (Status k') = Inventory (Status k).
Proof.
  rewrite CueInstanceNotReady_unfold. apply SetCueInstanceReadiness_run.
Qed.

Lemma CueInstanceNotReadyInventory_run (k : CueInstance)
  (inventory : option ResourceInventory) (revision reason message : string)
  (now : time.Time) :
  exists k',
    CueInstanceNotReadyInventory k inventory revision reason message now
    = Some k' /\
    readiness_committed k metav1.ConditionFalse reason
      (message_as_specified message) revision k' /\
    LastAppliedRevision (Status k') = LastAppliedRevision (Status k) /\
    Inventory (Status k') = inventory.
Proof.
  rewrite CueInstanceNotReadyInventory_unfold.
  destruct (SetCueInstanceReadiness_run k metav1.ConditionFalse reason message
              revision now) as (k1 & -> & Hc & Ha & Hi).
  simpl. eexists. split; [reflexivity|].
  split; [now apply readiness_committed_frame|].
  simpl. auto.
Qed.

Lemma CueInstanceReadyInventory_run (k : CueInstance)
  (inventory : option ResourceInventory) (revision reason message : string)
  (now : time.Time) :
  exists k',
    CueInstanceReadyInventory k inventory revision reason message now
    = Some k' /\
    readiness_committed k metav1.ConditionTrue reason
      (message_as_specified message) revision k' /\
    LastAppliedRevision (Status k') = revision /\
    Inventory (Status k') = inventory.
Proof.
  rewrite CueInstanceReadyInventory_unfold.
  destruct (SetCueInstanceReadiness_run k metav1.ConditionTrue reason message
              revision now) as (k1 & -> & Hc & Ha & Hi).
  simpl. eexists. split; [reflexivity|].
  split; [now apply readiness_committed_frame|].
  simpl. auto.
Qed.

Lemma readiness_committed_message (k : CueInstance)
  (status : metav1.ConditionStatus) (reason msg revision : string)
  (k' : CueInstance) :
  readiness_committed k status reason msg revision k' ->
  ReadyMessage k' = Some msg.
Proof.
  intros [_ _ _ _ (c & Hc & _ & _ & Hm)].
  unfold ReadyMessage. rewrite Hc. simpl. now rewrite Hm.
Qed.

(** ** [time.Duration] arithmetic *)

Lemma wrap64_in_range (z : Z) : time.in_int64 z -> time.wrap64 z = z.
Proof.
  unfold time.in_int64, time.min_int64, time.max_int64, time.wrap64.
  intros H. rewrite Z.mod_small; lia.
Qed.

Lemma thirty_seconds : 30 * time.Second = 30000000000.
Proof. reflexivity. Qed.

(** * Timeout and retry resolution *)

(** C2 as stated fails: with [Spec.Timeout] set to ten seconds [GetTimeout]
    answers thirty seconds, not the ten seconds of the field. *)
Lemma GetTimeout_below_floor_not_returned :
  ~ (forall (k : CueInstance) (t : metav1.Duration),
       Timeout (Spec k) = Some t -> GetTimeout k = metav1.Duration_ t).
Proof.
  intros H.
  specialize (H short_timeout_instance _ eq_refl).
  vm_compute in H. discriminate H.
Qed.

(** C2, amended: when [Spec.Timeout] is set, [GetTimeout] returns the
    larger of [Spec.Timeout.Duration] and 30 seconds: exactly
    [Spec.Timeout.Duration] when that is at least 30 seconds, and 30
    seconds when it is below. *)
Theorem GetTimeout_when_set (k : CueInstance) (t : metav1.Duration) :
  Timeout (Spec k) = Some t ->
  GetTimeout k = Z.max (30 * time.Second) (metav1.Duration_ t) /\
  (30 * time.Second <= metav1.Duration_ t -> GetTimeout k = metav1.Duration_ t) /\
  (metav1.Duration_ t < 30 * time.Second -> GetTimeout k = 30 * time.Second).
Proof.
  intros Ht. unfold GetTimeout. rewrite Ht.
  rewrite thirty_seconds.
  destruct (Z.ltb_spec (metav1.Duration_ t) 30000000000); lia.
Qed.

Lemma GetTimeout_when_set_witness :
  Timeout (Spec short_timeout_instance)
  = Some (metav1.mkDuration (10 * time.Second)) /\
  GetTimeout short_timeout_instance = 30 * time.Second.
Proof.
  split; [reflexivity|].
  apply (GetTimeout_when_set short_timeout_instance
           (metav1.mkDuration (10 * time.Second)) eq_refl).
  vm_compute. reflexivity.
Defined.

(** C4: [GetTimeout] always returns at least 30 seconds; when
    [Spec.Timeout] is not set it returns [Spec.Interval.Duration] minus 30
    seconds, floored at 30 seconds. The subtraction is the one of
    [time.Duration], and wherever [Interval - 30s] is itself an [int64],
    as for every non-negative interval, it is the subtraction of
    integers. *)
Theorem GetTimeout_floor (k : CueInstance) :
  30 * time.Second <= GetTimeout k /\
  (Timeout (Spec k) = None ->
   GetTimeout k
   = Z.max (30 * time.Second)
       (time.sub (metav1.Duration_ (Interval (Spec k))) (30 * time.Second))) /\
  (Timeout (Spec k) = None ->
   time.in_int64 (metav1.Duration_ (Interval (Spec k)) - 30 * time.Second) ->
   GetTimeout k
   = Z.max (30 * time.Second)
       (metav1.Duration_ (Interval (Spec k)) - 30 * time.Second)).
Proof.
  unfold GetTimeout. rewrite thirty_seconds.
  split; [|split].
  - match goal with |- _ <= (if ?d <? _ then _ else _) =>
      destruct (Z.ltb_spec d 30000000000); lia end.
  - intros ->.
    match goal with |- (if ?d <? _ then _ else _) = _ =>
      destruct (Z.ltb_spec d 30000000000); lia end.
  - intros -> Hr. unfold time.sub. rewrite wrap64_in_range by exact Hr.
    match goal with |- (if ?d <? _ then _ else _) = _ =>
      destruct (Z.ltb_spec d 30000000000); lia end.
Qed.

Lemma GetTimeout_floor_witness :
  Timeout (Spec sample_instance) = None /\
  time.in_int64
    (metav1.Duration_ (Interval (Spec sample_instance)) - 30 * time.Second) /\
  GetTimeout sample_instance = 270 * time.Second.
Proof.
  split; [reflexivity|].
  assert (Hr : time.in_int64
                 (metav1.Duration_ (Interval (Spec sample_instance))
                  - 30 * time.Second)).
  { vm_compute. split; discriminate. }
  split; [exact Hr|].
  exact (proj2 (proj2 (GetTimeout_floor sample_instance)) eq_refl Hr).
Defined.

(** C7: [GetRetryInterval] returns [Spec.RetryInterval.Duration] when
    [Spec.RetryInterval] is set, and [Spec.Interval.Duration] otherwise. *)
Theorem GetRetryInterval_resolution (k : CueInstance) :
  (forall r : metav1.Duration,
     RetryInterval (Spec k) = Some r ->
     GetRetryInterval k = metav1.Duration_ r) /\
  (RetryInterval (Spec k) = None ->
   GetRetryInterval k = metav1.Duration_ (Interval (Spec k))).
Proof.
  unfold GetRetryInterval. split.
  - intros r ->. reflexivity.
  - intros ->. reflexivity.
Qed.

Lemma GetRetryInterval_resolution_witness :
  GetRetryInterval retry_instance = 60 * time.Second /\
  GetRetryInterval sample_instance = 300 * time.Second.
Proof.
  split.
  - exact (proj1 (GetRetryInterval_resolution retry_instance)
             (metav1.mkDuration (60 * time.Second)) eq_refl).
  - exact (proj2 (GetRetryInterval_resolution sample_instance) eq_refl).
Defined.

(** At the far end of [int64] the [time.Duration] subtraction wraps: an
    interval of [min_int64] nanoseconds resolves to a large timeout. *)
Example GetTimeout_wraps :
  GetTimeout
    (mkCueInstance "default" "demo" 2
       (mkCueInstanceSpec (metav1.mkDuration time.min_int64)
          "" "" "" [] [] [] true None None false "" false None)
       sample_status)
  = time.max_int64 - 30 * time.Second + 1.
Proof. reflexivity. Qed.

(** * Status commits *)

(** C1 as stated fails: the failure commit [CueInstanceNotReadyInventory]
    stores the inventory it is given, so [Status.Inventory] does not keep
    its previous value. *)
Lemma failure_commit_changes_inventory :
  ~ (forall (k : CueInstance) (inventory : option ResourceInventory)
       (revision reason message : string) (now : time.Time) (k' : CueInstance),
       CueInstanceNotReadyInventory k inventory revision reason message now
       = Some k' ->
       LastAppliedRevision (Status k') = LastAppliedRevision (Status k) /\
       Inventory (Status k') = Inventory (Status k)).
Proof.
  intros H.
  destruct (H sample_instance (Some sample_inventory) "main/ccc" "ApplyFailed"
              "boom" 17 _ eq_refl) as [_ Hi].
  discriminate Hi.
Qed.

(** C1, amended: [Status.LastAppliedRevision] is written only by the
    successful commit [CueInstanceReadyInventory], which sets it to the
    revision and sets [Status.Inventory] to the inventory it is given; the
    failure commits ([Ready=False]) leave [LastAppliedRevision] at its
    previous value; [CueInstanceNotReady] leaves [Inventory] at its previous
    value too, while [CueInstanceNotReadyInventory] replaces [Inventory]
    with the inventory it is given. The two remaining writers of the status,
    [SetCueInstanceReadiness] and [CueInstanceProgressing], leave both
    fields as they were. *)
Theorem applied_revision_and_inventory_updates (k : CueInstance)
  (status : metav1.ConditionStatus) (inventory : option ResourceInventory)
  (revision reason message : string) (now : time.Time) :
  (exists k' c,
     CueInstanceNotReady k revision reason message now = Some k' /\
     ReadyOf k' = Some c /\ metav1.Status_ c = metav1.ConditionFalse /\
     LastAppliedRevision (Status k') = LastAppliedRevision (Status k) /\
     Inventory (Status k') = Inventory (Status k)) /\
  (exists k' c,
     CueInstanceNotReadyInventory k inventory revision reason message now
     = Some k' /\
     ReadyOf k' = Some c /\ metav1.Status_ c = metav1.ConditionFalse /\
     LastAppliedRevision (Status k') = LastAppliedRevision (Status k) /\
     Inventory (Status k') = inventory) /\
  (exists k' c,
     CueInstanceReadyInventory k inventory revision reason message now
     = Some k' /\
     ReadyOf k' = Some c /\ metav1.Status_ c = metav1.ConditionTrue /\
     LastAppliedRevision (Status k') = revision /\
     Inventory (Status k') = inventory) /\
  (exists k',
     SetCueInstanceReadiness k status reason message revision now = Some k' /\
     LastAppliedRevision (Status k') = LastAppliedRevision (Status k) /\
     Inventory (Status k') = Inventory (Status k)) /\
  (LastAppliedRevision (Status (CueInstanceProgressing k message now))
   = LastAppliedRevision (Status k) /\
   Inventory (Status (CueInstanceProgressing k message now))
   = Inventory (Status k)).
Proof.
  split; [|split; [|split; [|split]]].
  - destruct (CueInstanceNotReady_run k revision reason message now)
      as (k' & E & [_ _ _ _ (c & Hc & Hs & _)] & Ha & Hi).
    exists k', c. auto.
  - destruct (CueInstanceNotReadyInventory_run k inventory revision reason
                message now)
      as (k' & E & [_ _ _ _ (c & Hc & Hs & _)] & Ha & Hi).
    exists k', c. auto.
  - destruct (CueInstanceReadyInventory_run k inventory revision reason
                message now)
      as (k' & E & [_ _ _ _ (c & Hc & Hs & _)] & Ha & Hi).
    exists k', c. auto.
  - destruct (SetCueInstanceReadiness_run k status reason message revision now)
      as (k' & E & _ & Ha & Hi).
    exists k'. auto.
  - split; reflexivity.
Qed.

(** C3 as stated fails: a readiness commit with the empty revision stores
    the empty string in [Status.LastAttemptedRevision]; the previous value
    is not kept. *)
Lemma empty_revision_overwrites_attempted :
  ~ (forall (k : CueInstance) (status : metav1.ConditionStatus)
       (reason message : string) (now : time.Time) (k' : CueInstance),
       SetCueInstanceReadiness k status reason message "" now = Some k' ->
       LastAttemptedRevision (Status k') = LastAttemptedRevision (Status k)).
Proof.
  intros H.
  specialize (H sample_instance metav1.ConditionTrue "ReconciliationSucceeded"
                "done" 17 _ eq_refl).
  discriminate H.
Qed.

(** C3, amended: [SetCueInstanceReadiness] and [CueInstanceReadyInventory]
    set [Status.LastAttemptedRevision] to their revision argument, empty or
    not; and every readiness commit, success or failure, with a non-empty
    revision sets [Status.LastAttemptedRevision] to that revision. *)
Theorem LastAttemptedRevision_set (k : CueInstance)
  (status : metav1.ConditionStatus) (inventory : option ResourceInventory)
  (revision reason message : string) (now : time.Time) :
  (exists k',
     SetCueInstanceReadiness k status reason message revision now = Some k' /\
     LastAttemptedRevision (Status k') = revision) /\
  (exists k',
     CueInstanceReadyInventory k inventory revision reason message now
     = Some k' /\
     LastAttemptedRevision (Status k') = revision) /\
  (revision <> "" ->
   (exists k',
      CueInstanceNotReady k revision reason message now = Some k' /\
      LastAttemptedRevision (Status k') = revision) /\
   (exists k',
      CueInstanceNotReadyInventory k inventory revision reason message now
      = Some k' /\
      LastAttemptedRevision (Status k') = revision)).
Proof.
  split; [|split; [|intros _; split]].
  - destruct (SetCueInstanceReadiness_run k status reason message revision now)
      as (k' & E & [_ _ _ Ha _] & _). eauto.
  - destruct (CueInstanceReadyInventory_run k inventory revision reason
                message now) as (k' & E & [_ _ _ Ha _] & _). eauto.
  - destruct (CueInstanceNotReady_run k revision reason message now)
      as (k' & E & [_ _ _ Ha _] & _). eauto.
  - destruct (CueInstanceNotReadyInventory_run k inventory revision reason
                message now) as (k' & E & [_ _ _ Ha _] & _). eauto.
Qed.

Lemma LastAttemptedRevision_set_witness :
  "main/ccc" <> "" /\
  exists k',
    CueInstanceNotReady sample_instance "main/ccc" "BuildFailed" "boom" 17
    = Some k' /\
    LastAttemptedRevision (Status k') = "main/ccc".
Proof.
  assert (Hne : "main/ccc" <> "") by discriminate.
  split; [exact Hne|].
  exact (proj1
           (proj2 (proj2
              (LastAttemptedRevision_set sample_instance metav1.ConditionFalse
                 None "main/ccc" "BuildFailed" "boom" 17)) Hne)).
Defined.

(** C6: every readiness commit, success or failure
    ([SetCueInstanceReadiness], [CueInstanceNotReady],
    [CueInstanceNotReadyInventory], [CueInstanceReadyInventory]), sets
    [Status.ObservedGeneration] to the generation of the object, which the
    commit leaves as it was. *)
Theorem ObservedGeneration_set (k : CueInstance)
  (status : metav1.ConditionStatus) (inventory : option ResourceInventory)
  (revision reason message : string) (now : time.Time) :
  (exists k',
     SetCueInstanceReadiness k status reason message revision now = Some k' /\
     Generation k' = Generation k /\
     ObservedGeneration (Status k') = Generation k) /\
  (exists k',
     CueInstanceNotReady k revision reason message now = Some k' /\
     Generation k' = Generation k /\
     ObservedGeneration (Status k') = Generation k) /\
  (exists k',
     CueInstanceNotReadyInventory k inventory revision reason message now
     = Some k' /\
     Generation k' = Generation k /\
     ObservedGeneration (Status k') = Generation k) /\
  (exists k',
     CueInstanceReadyInventory k inventory revision reason message now
     = Some k' /\
     Generation k' = Generation k /\
     ObservedGeneration (Status k') = Generation k).
Proof.
  split; [|split; [|split]].
  - destruct (SetCueInstanceReadiness_run k status reason message revision now)
      as (k' & E & [Hg _ Ho _ _] & _). eauto.
  - destruct (CueInstanceNotReady_run k revision reason message now)
      as (k' & E & [Hg _ Ho _ _] & _). eauto.
  - destruct (CueInstanceNotReadyInventory_run k inventory revision reason
                message now) as (k' & E & [Hg _ Ho _ _] & _). eauto.
  - destruct (CueInstanceReadyInventory_run k inventory revision reason
                message now) as (k' & E & [Hg _ Ho _ _] & _). eauto.
Qed.

(** C10: after a successful commit through [CueInstanceReadyInventory]
    with revision [r], [Status.LastAppliedRevision] and
    [Status.LastAttemptedRevision] are both [r], hence equal. *)
Theorem ReadyInventory_revisions_agree (k : CueInstance)
  (inventory : option ResourceInventory) (r reason message : string)
  (now : time.Time) :
  exists k',
    CueInstanceReadyInventory k inventory r reason message now = Some k' /\
    LastAppliedRevision (Status k') = r /\
    LastAttemptedRevision (Status k') = r /\
    LastAppliedRevision (Status k') = LastAttemptedRevision (Status k').
Proof.
  destruct (CueInstanceReadyInventory_run k inventory r reason message now)
    as (k' & E & [_ _ _ Ha _] & Hl & _).
  exists k'. repeat split; congruence.
Qed.

(** * Message truncation *)

(** The message every readiness commit stores in the Ready condition. *)
Lemma commit_message (k : CueInstance) (status : metav1.ConditionStatus)
  (inventory : option ResourceInventory) (revision reason message : string)
  (now : time.Time) :
  (exists k',
     SetCueInstanceReadiness k status reason message revision now = Some k' /\
     ReadyMessage k' = Some (message_as_specified message)) /\
  (exists k',
     CueInstanceNotReady k revision reason message now = Some k' /\
     ReadyMessage k' = Some (message_as_specified message)) /\
  (exists k',
     CueInstanceNotReadyInventory k inventory revision reason message now
     = Some k' /\
     ReadyMessage k' = Some (message_as_specified message)) /\
  (exists k',
     CueInstanceReadyInventory k inventory revision reason message now
     = Some k' /\
     ReadyMessage k' = Some (message_as_specified message)).
Proof.
  split; [|split; [|split]].
  - destruct (SetCueInstanceReadiness_run k status reason message revision now)
      as (k' & E & Hc & _). eauto using readiness_committed_message.
  - destruct (CueInstanceNotReady_run k revision reason message now)
      as (k' & E & Hc & _). eauto using readiness_committed_message.
  - destruct (CueInstanceNotReadyInventory_run k inventory revision reason
                message now) as (k' & E & Hc & _).
    eauto using readiness_committed_message.
  - destruct (CueInstanceReadyInventory_run k inventory revision reason
                message now) as (k' & E & Hc & _).
    eauto using readiness_committed_message.
Qed.

Lemma message_as_specified_long_length (message : string) :
  MaxConditionMessageLength < Z.of_nat (String.length message) ->
  Z.of_nat (String.length (message_as_specified message)) = 20003.
Proof.
  unfold MaxConditionMessageLength, message_as_specified. intros H.
  rewrite (proj2 (Z.leb_gt _ _)) by lia.
  rewrite trimString_long_length by lia. reflexivity.
Qed.

(** C5: no message makes a readiness commit fail, and the message stored in
    the Ready condition is the original string when its length is at most
    [MaxConditionMessageLength = 20000], and otherwise its first 20000
    bytes followed by the marker ["..."]. *)
Theorem stored_message_truncated (k : CueInstance)
  (status : metav1.ConditionStatus) (inventory : option ResourceInventory)
  (revision reason message : string) (now : time.Time) :
  let stored :=
    if Z.of_nat (String.length message) <=? MaxConditionMessageLength
    then message
    else String.substring 0 (Z.to_nat 20000) message +:+ "..." in
  (exists k',
     SetCueInstanceReadiness k status reason message revision now = Some k' /\
     ReadyMessage k' = Some stored) /\
  (exists k',
     CueInstanceNotReady k revision reason message now = Some k' /\
     ReadyMessage k' = Some stored) /\
  (exists k',
     CueInstanceNotReadyInventory k inventory revision reason message now
     = Some k' /\
     ReadyMessage k' = Some stored) /\
  (exists k',
     CueInstanceReadyInventory k inventory revision reason message now
     = Some k' /\
     ReadyMessage k' = Some stored).
Proof.
  intros stored.
  assert (Hs : stored = message_as_specified message) by reflexivity.
  rewrite Hs. apply commit_message.
Qed.

(** C8: for every string strictly longer than
    [MaxConditionMessageLength = 20000], the truncated message, as
    [trimString] returns it and as every readiness commit stores it, has
    length exactly 20003: the cap plus the three bytes of the marker. *)
Theorem truncated_message_length (k : CueInstance)
  (status : metav1.ConditionStatus) (inventory : option ResourceInventory)
  (revision reason message : string) (now : time.Time) :
  MaxConditionMessageLength < Z.of_nat (String.length message) ->
  (exists t,
     trimString message MaxConditionMessageLength = Some t /\
     Z.of_nat (String.length t) = MaxConditionMessageLength + 3) /\
  (exists k' t,
     SetCueInstanceReadiness k status reason message revision now = Some k' /\
     ReadyMessage k' = Some t /\ Z.of_nat (String.length t) = 20003) /\
  (exists k' t,
     CueInstanceNotReady k revision reason message now = Some k' /\
     ReadyMessage k' = Some t /\ Z.of_nat (String.length t) = 20003) /\
  (exists k' t,
     CueInstanceNotReadyInventory k inventory revision reason message now
     = Some k' /\
     ReadyMessage k' = Some t /\ Z.of_nat (String.length t) = 20003) /\
  (exists k' t,
     CueInstanceReadyInventory k inventory revision reason message now
     = Some k' /\
     ReadyMessage k' = Some t /\ Z.of_nat (String.length t) = 20003).
Proof.
  intros Hlong.
  pose proof (message_as_specified_long_length message Hlong) as Hlen.
  destruct (commit_message k status inventory revision reason message now)
    as ((k1 & E1 & M1) & (k2 & E2 & M2) & (k3 & E3 & M3) & (k4 & E4 & M4)).
  split; [|split; [|split; [|split]]]; eauto 6.
  exists (message_as_specified message). split; [apply trimString_cap|].
  exact Hlen.
Qed.

Lemma truncated_message_length_witness :
  MaxConditionMessageLength < Z.of_nat (String.length long_message) /\
  exists t,
    trimString long_message MaxConditionMessageLength = Some t /\
    Z.of_nat (String.length t) = MaxConditionMessageLength + 3.
Proof.
  assert (Hlong : MaxConditionMessageLength
                  < Z.of_nat (String.length long_message)).
  { vm_compute. reflexivity. }
  split; [exact Hlong|].
  exact (proj1
           (truncated_message_length sample_instance metav1.ConditionFalse None
              "main/ccc" "BuildFailed" long_message 17 Hlong)).
Defined.

(** C9: [trimString] is idempotent: for every string and every
    non-negative limit it returns a string that it returns unchanged when
    applied again with the same limit. Consequently [CueInstanceNotReady]
    and [CueInstanceNotReadyInventory], which trim the message before
    [SetCueInstanceReadiness] trims it again, store the message a single
    truncation gives. *)
Theorem trimString_idempotent (s : string) (L : Z) (k : CueInstance)
  (inventory : option ResourceInventory) (revision reason : string)
  (now : time.Time) :
  0 <= L ->
  (exists t, trimString s L = Some t /\ trimString t L = Some t) /\
  (exists k',
     CueInstanceNotReady k revision reason s now = Some k' /\
     ReadyMessage k' = trimString s MaxConditionMessageLength) /\
  (exists k',
     CueInstanceNotReadyInventory k inventory revision reason s now
     = Some k' /\
     ReadyMessage k' = trimString s MaxConditionMessageLength).
Proof.
  intros HL. split; [|split].
  - destruct (Z_le_gt_dec (Z.of_nat (String.length s)) L) as [Hs | Hs].
    + exists s. split; apply trimString_short; lia.
    + eexists. split; [apply trimString_long; lia|].
      eapply trimString_fixed; [exact HL|]. apply trimString_long; lia.
  - rewrite trimString_cap.
    exact (proj1 (proj2 (commit_message k metav1.ConditionFalse inventory
                           revision reason s now))).
  - rewrite trimString_cap.
    exact (proj1 (proj2 (proj2 (commit_message k metav1.ConditionFalse
                                  inventory revision reason s now)))).
Qed.

Lemma trimString_idempotent_witness :
  0 <= 2 /\
  exists t, trimString "hello" 2 = Some t /\ trimString t 2 = Some t.
Proof.
  assert (H2 : 0 <= 2) by discriminate.
  split; [exact H2|].
  exact (proj1
           (trimString_idempotent "hello" 2 sample_instance None "main/ccc"
              "BuildFailed" 17 H2)).
Defined.

(** ** [trimString] on small inputs *)

Example trimString_keeps_short : trimString "hello" 5 = Some "hello".
Proof. reflexivity. Qed.

Example trimString_cuts_long : trimString "hello" 2 = Some "he...".
Proof. reflexivity. Qed.

(** A negative limit below the length makes the slice expression panic. *)
Example trimString_negative_limit : trimString "hello" (-1) = None.
Proof. reflexivity. Qed.

(** * Further properties of [trimString] *)

Lemma trimString_returns_limit (str t : string) (limit : Z) :
  trimString str limit = Some t -> 0 <= limit.
Proof.
  unfold trimString, slice. intros Ht.
  destruct (Z.leb_spec (Z.of_nat (String.length str)) limit) as [Hs | Hs];
    [lia|].
  destruct (Z.leb_spec 0 limit) as [Hl | Hl]; [exact Hl|].
  rewrite (proj2 (Z.leb_le 0 0)) in Ht by lia. discriminate Ht.
Qed.

(** X1: [trimString] panics exactly on a negative limit, whatever the
    string, the empty one included; for every other limit it returns. *)
Theorem trimString_panics_iff (str : string) (limit : Z) :
  trimString str limit = None <-> limit < 0.
Proof.
  split.
  - intros Hn. destruct (Z_lt_ge_dec limit 0) as [Hneg | Hpos]; [exact Hneg|].
    destruct (Z_le_gt_dec (Z.of_nat (String.length str)) limit) as [Hs | Hs].
    + rewrite trimString_short in Hn by lia. discriminate Hn.
    + rewrite trimString_long in Hn by lia. discriminate Hn.
  - intros Hneg. unfold trimString, slice.
    rewrite (proj2 (Z.leb_gt _ _)) by lia.
    rewrite (proj2 (Z.leb_le 0 0)) by lia.
    rewrite (proj2 (Z.leb_gt 0 limit)) by lia.
    reflexivity.
Qed.

(** X2: a string that [trimString] returns is never longer than the limit
    plus the three bytes of the marker, and it is longer than the string
    passed in exactly when that string exceeds the limit by one or two
    bytes. *)
Theorem trimString_length (str t : string) (limit : Z) :
  trimString str limit = Some t ->
  Z.of_nat (String.length t) <= limit + 3 /\
  (Z.of_nat (String.length str) < Z.of_nat (String.length t) <->
   limit < Z.of_nat (String.length str) < limit + 3).
Proof.
  intros Ht.
  pose proof (trimString_returns_limit str t limit Ht) as Hl.
  destruct (Z_le_gt_dec (Z.of_nat (String.length str)) limit) as [Hs | Hs].
  - rewrite trimString_short in Ht by lia. inversion Ht; subst. lia.
  - rewrite trimString_long in Ht by lia. inversion Ht; subst; clear Ht.
    rewrite trimString_long_length by lia. lia.
Qed.

Lemma trimString_length_witness :
  trimString "hello" 4 = Some "hell..." /\
  Z.of_nat (String.length "hello") < Z.of_nat (String.length "hell...").
Proof.
  assert (Ht : trimString "hello" 4 = Some "hell...") by reflexivity.
  split; [exact Ht|].
  apply (proj2 (trimString_length "hello" "hell..." 4 Ht)).
  vm_compute. split; reflexivity.
Defined.

(** X3: the first [min (len str) limit] bytes of the string come back
    unchanged: what [trimString] returns starts with them. *)
Theorem trimString_keeps_prefix (str t : string) (limit : Z) :
  trimString str limit = Some t ->
  String.substring 0 (Z.to_nat (Z.min (Z.of_nat (String.length str)) limit)) t
  = String.substring 0
      (Z.to_nat (Z.min (Z.of_nat (String.length str)) limit)) str.
Proof.
  intros Ht.
  pose proof (trimString_returns_limit str t limit Ht) as Hl.
  destruct (Z_le_gt_dec (Z.of_nat (String.length str)) limit) as [Hs | Hs].
  - rewrite trimString_short in Ht by lia. now inversion Ht.
  - rewrite trimString_long in Ht by lia. inversion Ht; subst; clear Ht.
    rewrite Z.min_r by lia.
    rewrite substring_0_app by (rewrite substring_0_length; lia).
    apply substring_0_twice.
Qed.

Lemma trimString_keeps_prefix_witness :
  trimString "hello" 2 = Some "he..." /\
  String.substring 0 2 "he..." = String.substring 0 2 "hello".
Proof.
  assert (Ht : trimString "hello" 2 = Some "he...") by reflexivity.
  split; [exact Ht|].
  exact (trimString_keeps_prefix "hello" "he..." 2 Ht).
Defined.

(** * Further properties of the condition helper *)

Lemma SetStatusCondition_found (cs : list metav1.Condition)
  (c : metav1.Condition) (now : time.Time) :
  exists i e,
    apimeta.FindStatusCondition (apimeta.SetStatusCondition cs c now)
      (metav1.Type_ c) = Some (i, e) /\
    metav1.Type_ e = metav1.Type_ c /\
    metav1.Status_ e = metav1.Status_ c /\
    metav1.ObservedGeneration_ e = metav1.ObservedGeneration_ c /\
    metav1.Reason e = metav1.Reason c /\
    metav1.Message e = metav1.Message c.
Proof.
  unfold apimeta.SetStatusCondition, apimeta.FindStatusCondition.
  destruct (list_find _ cs) as [[i e]|] eqn:E.
  - apply list_find_Some in E as (Hl & HP & Hleast).
    destruct (decide (metav1.Status_ e ≠ metav1.Status_ c)) as [Hne | Heq].
    + eexists i, _. split.
      * apply list_find_insert_Some. right; left.
        split_and!; [reflexivity | reflexivity | | exact HP | exact Hleast].
        eauto using lookup_lt_Some.
      * simpl. auto.
    + eexists i, _. split.
      * apply list_find_insert_Some. right; left.
        split_and!; [reflexivity | reflexivity | | exact HP | exact Hleast].
        eauto using lookup_lt_Some.
      * simpl. split_and!; auto. now apply dec_stable.
  - rewrite list_find_app_r by exact E. simpl.
    rewrite decide_True by reflexivity. simpl.
    eexists _, _. split; [reflexivity|]. simpl; auto.
Qed.

(** Setting the condition that has just been set changes nothing, at
    whatever time: the status is the same, so the transition time stays. *)
Lemma SetStatusCondition_again (cs : list metav1.Condition)
  (c : metav1.Condition) (now now' : time.Time) :
  apimeta.SetStatusCondition (apimeta.SetStatusCondition cs c now) c now'
  = apimeta.SetStatusCondition cs c now.
Proof.
  destruct (SetStatusCondition_found cs c now)
    as (i & e & Hf & Ht & Hs & Ho & Hr & Hm).
  set (cs1 := apimeta.SetStatusCondition cs c now) in *.
  unfold apimeta.SetStatusCondition at 1. rewrite Hf.
  rewrite decide_False by (intros Hne; apply Hne; exact Hs).
  unfold apimeta.FindStatusCondition in Hf.
  apply list_find_Some in Hf as (Hl & _ & _).
  apply list_insert_id. rewrite Hl. f_equal.
  destruct e; simpl in *; congruence.
Qed.

(** The conditions of other types stay as they are, in their order. *)
Lemma SetStatusCondition_others (cs : list metav1.Condition)
  (c : metav1.Condition) (now : time.Time) :
  filter (λ x, metav1.Type_ x ≠ metav1.Type_ c)
    (apimeta.SetStatusCondition cs c now)
  = filter (λ x, metav1.Type_ x ≠ metav1.Type_ c) cs.
Proof.
  unfold apimeta.SetStatusCondition, apimeta.FindStatusCondition.
  destruct (list_find _ cs) as [[i e]|] eqn:E.
  - apply list_find_Some in E as (Hl & HP & _).
    destruct (decide (metav1.Status_ e ≠ metav1.Status_ c)) as [Hne | Heq];
      rewrite insert_take_drop by eauto using lookup_lt_Some;
      rewrite <- (take_drop_middle cs i e Hl) at 3;
      rewrite !filter_app, !filter_cons;
      rewrite !decide_False by (simpl; intros Hx; apply Hx; exact HP);
      reflexivity.
  - rewrite filter_app, filter_cons.
    rewrite decide_False by (simpl; intros Hx; now apply Hx).
    rewrite filter_nil. apply app_nil_r.
Qed.

(** The slice grows by one condition when none of the type is present and
    keeps its length otherwise. *)
Lemma SetStatusCondition_length (cs : list metav1.Condition)
  (c : metav1.Condition) (now : time.Time) :
  length (apimeta.SetStatusCondition cs c now)
  = match apimeta.FindStatusCondition cs (metav1.Type_ c) with
    | Some _ => length cs
    | None => S (length cs)
    end.
Proof.
  unfold apimeta.SetStatusCondition.
  destruct (apimeta.FindStatusCondition cs (metav1.Type_ c)) as [[i e]|].
  - destruct (decide (metav1.Status_ e ≠ metav1.Status_ c));
      apply length_insert.
  - rewrite length_app. simpl. lia.
Qed.

(** * Further properties of the status helpers *)

Lemma SetCueInstanceReadiness_conditions (k : CueInstance)
  (status : metav1.ConditionStatus) (reason message revision : string)
  (now : time.Time) :
  exists k',
    SetCueInstanceReadiness k status reason message revision now = Some k' /\
    outside_kept k k' /\
    Conditions (Status k')
    = apimeta.SetStatusCondition (Conditions (Status k))
        (metav1.mkCondition meta.ReadyCondition status 0 None reason
           (message_as_specified message)) now.
Proof.
  unfold SetCueInstanceReadiness. rewrite trimString_cap. simpl.
  eexists. split; [reflexivity|]. split; [constructor|]; reflexivity.
Qed.

Lemma CueInstanceProgressing_conditions (k : CueInstance) (message : string)
  (now : time.Time) :
  Conditions (Status (CueInstanceProgressing k message now))
  = apimeta.SetStatusCondition (Conditions (Status k))
      (metav1.mkCondition meta.ReadyCondition metav1.ConditionUnknown 0 None
         meta.ProgressingReason message) now.
Proof. reflexivity. Qed.

Lemma other_conditions_set (k k' : CueInstance) (c : metav1.Condition)
  (now : time.Time) :
  metav1.Type_ c = meta.ReadyCondition ->
  Conditions (Status k')
  = apimeta.SetStatusCondition (Conditions (Status k)) c now ->
  other_conditions k' = other_conditions k /\
  length (Conditions (Status k'))
  = match ReadyOf k with
    | Some _ => length (Conditions (Status k))
    | None => S (length (Conditions (Status k)))
    end.
Proof.
  intros Hty Hcs. unfold other_conditions, ReadyOf. rewrite Hcs, <- Hty.
  split; [apply SetStatusCondition_others|].
  rewrite SetStatusCondition_length.
  now destruct (apimeta.FindStatusCondition _ _).
Qed.

(** X4: [CueInstanceProgressing] sets the Ready condition to status
    Unknown with reason [Progressing] and stores the message as it is
    given, with no truncation; it leaves [ObservedGeneration],
    [LastAttemptedRevision] and everything outside the conditions as they
    were. *)
Theorem CueInstanceProgressing_effect (k : CueInstance) (message : string)
  (now : time.Time) :
  (exists c,
     ReadyOf (CueInstanceProgressing k message now) = Some c /\
     metav1.Status_ c = metav1.ConditionUnknown /\
     metav1.Reason c = meta.ProgressingReason /\
     metav1.Message c = message) /\
  ObservedGeneration (Status (CueInstanceProgressing k message now))
  = ObservedGeneration (Status k) /\
  LastAttemptedRevision (Status (CueInstanceProgressing k message now))
  = LastAttemptedRevision (Status k) /\
  outside_kept k (CueInstanceProgressing k message now).
Proof.
  split; [|split; [|split]]; try reflexivity.
  - apply (SetResourceCondition_ready k metav1.ConditionUnknown
             meta.ProgressingReason message now).
  - constructor; reflexivity.
Qed.

(** X5: no readiness commit touches the object outside the fields it is
    there to set: namespace, name, generation, [Spec] and
    [LastHandledReconcileAt] come back as they went in. *)
Theorem commits_keep_spec_and_identity (k : CueInstance)
  (status : metav1.ConditionStatus) (inventory : option ResourceInventory)
  (revision reason message : string) (now : time.Time) :
  (exists k',
     SetCueInstanceReadiness k status reason message revision now = Some k' /\
     outside_kept k k') /\
  (exists k',
     CueInstanceNotReady k revision reason message now = Some k' /\
     outside_kept k k') /\
  (exists k',
     CueInstanceNotReadyInventory k inventory revision reason message now
     = Some k' /\
     outside_kept k k') /\
  (exists k',
     CueInstanceReadyInventory k inventory revision reason message now
     = Some k' /\
     outside_kept k k').
Proof.
  split; [|split; [|split]].
  - destruct (SetCueInstanceReadiness_conditions k status reason message
                revision now) as (k' & E & Hk & _). eauto.
  - rewrite CueInstanceNotReady_unfold.
    destruct (SetCueInstanceReadiness_conditions k metav1.ConditionFalse reason
                message revision now) as (k' & E & Hk & _). eauto.
  - rewrite CueInstanceNotReadyInventory_unfold.
    destruct (SetCueInstanceReadiness_conditions k metav1.ConditionFalse reason
                message revision now) as (k' & -> & [H1 H2 H3 H4 H5] & _).
    simpl. eexists. split; [reflexivity|]. constructor; assumption.
  - rewrite CueInstanceReadyInventory_unfold.
    destruct (SetCueInstanceReadiness_conditions k metav1.ConditionTrue reason
                message revision now) as (k' & -> & [H1 H2 H3 H4 H5] & _).
    simpl. eexists. split; [reflexivity|]. constructor; assumption.
Qed.

(** X6: a failed attempt registered with [CueInstanceNotReady] after a
    successful commit keeps what the success recorded: the status still
    carries the applied revision and the inventory of the success, next to
    the revision of the failed attempt and a Ready condition at False. *)
Theorem failure_after_success_keeps_applied (k : CueInstance)
  (inventory : option ResourceInventory) (r reason message : string)
  (now : time.Time) (r' reason' message' : string) (now' : time.Time) :
  exists k1 k2 c,
    CueInstanceReadyInventory k inventory r reason message now = Some k1 /\
    CueInstanceNotReady k1 r' reason' message' now' = Some k2 /\
    LastAppliedRevision (Status k2) = r /\
    Inventory (Status k2) = inventory /\
    LastAttemptedRevision (Status k2) = r' /\
    ReadyOf k2 = Some c /\ metav1.Status_ c = metav1.ConditionFalse.
Proof.
  destruct (CueInstanceReadyInventory_run k inventory r reason message now)
    as (k1 & E1 & _ & Ha1 & Hi1).
  destruct (CueInstanceNotReady_run k1 r' reason' message' now')
    as (k2 & E2 & [_ _ _ Hatt (c & Hc & Hs & _)] & Ha2 & Hi2).
  exists k1, k2, c. split_and!; congruence.
Qed.

Lemma SetCueInstanceReadiness_again (k k1 : CueInstance)
  (status : metav1.ConditionStatus) (reason message revision : string)
  (now now' : time.Time) :
  SetCueInstanceReadiness k status reason message revision now = Some k1 ->
  SetCueInstanceReadiness k1 status reason message revision now' = Some k1.
Proof.
  unfold SetCueInstanceReadiness. rewrite trimString_cap. simpl.
  intros E. inversion E; subst k1; clear E.
  unfold meta.SetResourceCondition. simpl.
  unfold store_StatusConditions, GetStatusConditions. simpl.
  rewrite SetStatusCondition_again. reflexivity.
Qed.

(** X7: committing the same outcome a second time is a no-op. Each
    readiness commit, applied to the object it has just returned with the
    same arguments, returns that object unchanged, whatever the clock then
    reads: the Ready condition keeps its transition time because its status
    does not change. *)
Theorem recommit_is_noop (k : CueInstance) (status : metav1.ConditionStatus)
  (inventory : option ResourceInventory) (revision reason message : string)
  (now : time.Time) :
  (exists k1,
     SetCueInstanceReadiness k status reason message revision now = Some k1 /\
     forall now',
       SetCueInstanceReadiness k1 status reason message revision now'
       = Some k1) /\
  (exists k1,
     CueInstanceNotReady k revision reason message now = Some k1 /\
     forall now', CueInstanceNotReady k1 revision reason message now' = Some k1) /\
  (exists k1,
     CueInstanceNotReadyInventory k inventory revision reason message now
     = Some k1 /\
     forall now',
       CueInstanceNotReadyInventory k1 inventory revision reason message now'
       = Some k1) /\
  (exists k1,
     CueInstanceReadyInventory k inventory revision reason message now
     = Some k1 /\
     forall now',
       CueInstanceReadyInventory k1 inventory revision reason message now'
       = Some k1).
Proof.
  split; [|split; [|split]].
  - destruct (SetCueInstanceReadiness_run k status reason message revision now)
      as (k1 & E & _).
    exists k1. split; [exact E|]. intros now'.
    now apply (SetCueInstanceReadiness_again k k1 _ _ _ _ now now').
  - destruct (CueInstanceNotReady_run k revision reason message now)
      as (k1 & E & _).
    exists k1. split; [exact E|]. intros now'.
    rewrite CueInstanceNotReady_unfold in *.
    now apply (SetCueInstanceReadiness_again k k1 _ _ _ _ now now').
  - rewrite CueInstanceNotReadyInventory_unfold.
    destruct (SetCueInstanceReadiness_run k metav1.ConditionFalse reason message
                revision now) as (k1 & E & _).
    rewrite E. simpl. eexists. split; [reflexivity|]. intros now'.
    rewrite CueInstanceNotReadyInventory_unfold.
    revert E. unfold SetCueInstanceReadiness. rewrite trimString_cap. simpl.
    intros E; inversion E; subst k1; clear E.
    unfold meta.SetResourceCondition. simpl.
    unfold store_StatusConditions, GetStatusConditions. simpl.
    rewrite SetStatusCondition_again. reflexivity.
  - rewrite CueInstanceReadyInventory_unfold.
    destruct (SetCueInstanceReadiness_run k metav1.ConditionTrue reason message
                revision now) as (k1 & E & _).
    rewrite E. simpl. eexists. split; [reflexivity|]. intros now'.
    rewrite CueInstanceReadyInventory_unfold.
    revert E. unfold SetCueInstanceReadiness. rewrite trimString_cap. simpl.
    intros E; inversion E; subst k1; clear E.
    unfold meta.SetResourceCondition. simpl.
    unfold store_StatusConditions, GetStatusConditions. simpl.
    rewrite SetStatusCondition_again. reflexivity.
Qed.

(** X8: the status helpers never reset the conditions. After
    [CueInstanceProgressing] and after every readiness commit the
    conditions of other types are the ones the object had, in their order,
    and the slice has grown by one condition when the object had no Ready
    condition and kept its length when it had one. *)
Theorem helpers_keep_other_conditions (k : CueInstance)
  (status : metav1.ConditionStatus) (inventory : option ResourceInventory)
  (revision reason message : string) (now : time.Time) :
  let grown :=
    match ReadyOf k with
    | Some _ => length (Conditions (Status k))
    | None => S (length (Conditions (Status k)))
    end in
  (other_conditions (CueInstanceProgressing k message now) = other_conditions k /\
   length (Conditions (Status (CueInstanceProgressing k message now))) = grown) /\
  (exists k',
     SetCueInstanceReadiness k status reason message revision now = Some k' /\
     other_conditions k' = other_conditions k /\
     length (Conditions (Status k')) = grown) /\
  (exists k',
     CueInstanceNotReady k revision reason message now = Some k' /\
     other_conditions k' = other_conditions k /\
     length (Conditions (Status k')) = grown) /\
  (exists k',
     CueInstanceNotReadyInventory k inventory revision reason message now
     = Some k' /\
     other_conditions k' = other_conditions k /\
     length (Conditions (Status k')) = grown) /\
  (exists k',
     CueInstanceReadyInventory k inventory revision reason message now
     = Some k' /\
     other_conditions k' = other_conditions k /\
     length (Conditions (Status k')) = grown).
Proof.
  intros grown. subst grown.
  split; [|split; [|split; [|split]]].
  - eapply other_conditions_set; [|apply CueInstanceProgressing_conditions].
    reflexivity.
  - destruct (SetCueInstanceReadiness_conditions k status reason message
                revision now) as (k' & E & _ & Hc).
    exists k'. split; [exact E|].
    eapply other_conditions_set; [|exact Hc]. reflexivity.
  - rewrite CueInstanceNotReady_unfold.
    destruct (SetCueInstanceReadiness_conditions k metav1.ConditionFalse reason
                message revision now) as (k' & E & _ & Hc).
    exists k'. split; [exact E|].
    eapply other_conditions_set; [|exact Hc]. reflexivity.
  - rewrite CueInstanceNotReadyInventory_unfold.
    destruct (SetCueInstanceReadiness_conditions k metav1.ConditionFalse reason
                message revision now) as (k' & -> & _ & Hc).
    simpl. eexists. split; [reflexivity|].
    eapply other_conditions_set; [|exact Hc]. reflexivity.
  - rewrite CueInstanceReadyInventory_unfold.
    destruct (SetCueInstanceReadiness_conditions k metav1.ConditionTrue reason
                message revision now) as (k' & -> & _ & Hc).
    simpl. eexists. split; [reflexivity|].
    eapply other_conditions_set; [|exact Hc]. reflexivity.
Qed.

(** X9: the assignment that [CueInstanceNotReady] and
    [CueInstanceNotReadyInventory] guard with [revision != ""] never
    changes their result. The first returns what [SetCueInstanceReadiness]
    returns at status False; the second returns that object with the
    inventory stored; and at the empty revision both return an object whose
    [LastAttemptedRevision] is empty. *)
Theorem NotReady_guard_has_no_effect (k : CueInstance)
  (inventory : option ResourceInventory) (revision reason message : string)
  (now : time.Time) :
  CueInstanceNotReady k revision reason message now
  = SetCueInstanceReadiness k metav1.ConditionFalse reason message revision
      now /\
  CueInstanceNotReadyInventory k inventory revision reason message now
  = (k1 ← SetCueInstanceReadiness k metav1.ConditionFalse reason message
            revision now;
     Some (with_Status (set_Inventory inventory (Status k1)) k1)) /\
  (exists k',
     CueInstanceNotReady k "" reason message now = Some k' /\
     LastAttemptedRevision (Status k') = "") /\
  (exists k',
     CueInstanceNotReadyInventory k inventory "" reason message now = Some k' /\
     LastAttemptedRevision (Status k') = "").
Proof.
  split; [apply CueInstanceNotReady_unfold|].
  split; [apply CueInstanceNotReadyInventory_unfold|].
  split.
  - destruct (CueInstanceNotReady_run k "" reason message now)
      as (k' & E & [_ _ _ Ha _] & _). eauto.
  - destruct (CueInstanceNotReadyInventory_run k inventory "" reason message
                now) as (k' & E & [_ _ _ Ha _] & _). eauto.
Qed.

Lemma message_as_specified_bounded (message : string) :
  Z.of_nat (String.length (message_as_specified message))
  <= MaxConditionMessageLength + 3.
Proof.
  unfold MaxConditionMessageLength.
  destruct (Z_le_gt_dec (Z.of_nat (String.length message)) 20000) as [Hs | Hs].
  - unfold message_as_specified.
    rewrite (proj2 (Z.leb_le _ _)) by lia. lia.
  - rewrite message_as_specified_long_length
      by (unfold MaxConditionMessageLength; lia).
    lia.
Qed.

(** X10: whatever message a readiness commit is given, the message it
    leaves in the Ready condition is at most
    [MaxConditionMessageLength + 3 = 20003] bytes long. *)
Theorem stored_message_bounded (k : CueInstance)
  (status : metav1.ConditionStatus) (inventory : option ResourceInventory)
  (revision reason message : string) (now : time.Time) :
  (exists k' t,
     SetCueInstanceReadiness k status reason message revision now = Some k' /\
     ReadyMessage k' = Some t /\ Z.of_nat (String.length t) <= 20003) /\
  (exists k' t,
     CueInstanceNotReady k revision reason message now = Some k' /\
     ReadyMessage k' = Some t /\ Z.of_nat (String.length t) <= 20003) /\
  (exists k' t,
     CueInstanceNotReadyInventory k inventory revision reason message now
     = Some k' /\
     ReadyMessage k' = Some t /\ Z.of_nat (String.length t) <= 20003) /\
  (exists k' t,
     CueInstanceReadyInventory k inventory revision reason message now
     = Some k' /\
     ReadyMessage k' = Some t /\ Z.of_nat (String.length t) <= 20003).
Proof.
  pose proof (message_as_specified_bounded message) as Hb.
  unfold MaxConditionMessageLength in Hb.
  destruct (commit_message k status inventory revision reason message now)
    as ((k1 & E1 & M1) & (k2 & E2 & M2) & (k3 & E3 & M3) & (k4 & E4 & M4)).
  split; [|split; [|split]]; eauto 6.
Qed.

(** * Further properties of the timeout resolution *)

(** X11: with [Spec.Timeout] unset and a non-negative interval, the
    resolved timeout stays within the interval exactly when the interval
    is at least 30 seconds, and equals the interval only when the interval
    is 30 seconds; below 30 seconds the timeout is longer than the
    interval. *)
Theorem GetTimeout_against_Interval (k : CueInstance) :
  Timeout (Spec k) = None ->
  0 <= metav1.Duration_ (Interval (Spec k)) <= time.max_int64 ->
  (GetTimeout k <= metav1.Duration_ (Interval (Spec k))
   <-> 30 * time.Second <= metav1.Duration_ (Interval (Spec k))) /\
  (GetTimeout k = metav1.Duration_ (Interval (Spec k))
   <-> metav1.Duration_ (Interval (Spec k)) = 30 * time.Second).
Proof.
  intros Ht Hr. unfold GetTimeout. rewrite Ht.
  unfold time.sub. rewrite thirty_seconds.
  rewrite wrap64_in_range
    by (unfold time.in_int64, time.min_int64, time.max_int64 in *; lia).
  destruct (Z.ltb_spec (metav1.Duration_ (Interval (Spec k)) - 30000000000)
              30000000000); lia.
Qed.

Lemma GetTimeout_against_Interval_witness :
  GetTimeout sample_instance
  <= metav1.Duration_ (Interval (Spec sample_instance)).
Proof.
  assert (Hr : 0 <= metav1.Duration_ (Interval (Spec sample_instance))
               <= time.max_int64).
  { vm_compute. split; discriminate. }
  apply (proj1 (GetTimeout_against_Interval sample_instance eq_refl Hr)).
  vm_compute. discriminate.
Defined.

(** * The generated deep copies *)

Lemma slice_elems_ok (h : Heap) (s : Slice) :
  slice_ok h s ->
  exists arr, arrays h !! s_array s = Some arr /\
    (s_off s + s_len s <= length arr)%nat /\
    slice_elems (Some s) h = Some (take (s_len s) (drop (s_off s) arr)) /\
    length (take (s_len s) (drop (s_off s) arr)) = s_len s.
Proof.
  intros (arr & Ha & Hl & Hc). exists arr. split; [exact Ha|].
  split; [lia|].
  unfold slice_elems. rewrite Ha. simpl. split; [reflexivity|].
  rewrite length_take, length_drop. lia.
Qed.

Lemma fresh_array_other (h : Heap) (a : loc) :
  is_Some (arrays h !! a) -> fresh (dom (arrays h)) <> a.
Proof.
  intros Ha E. apply (is_fresh (dom (arrays h))). rewrite E.
  now apply elem_of_dom.
Qed.

Lemma fresh_inventory_other (h : Heap) (l : loc) :
  is_Some (inventories h !! l) -> fresh (dom (inventories h)) <> l.
Proof.
  intros Hl E. apply (is_fresh (dom (inventories h))). rewrite E.
  now apply elem_of_dom.
Qed.

Lemma DeepCopyInto_nil_entries (li lo : loc) (c : InventoryCell) (h : Heap) :
  inventories h !! li = Some c ->
  is_Some (inventories h !! lo) ->
  c_Entries c = None ->
  ResourceInventory_DeepCopyInto (Some li) (Some lo) h
  = Some (set_inventories (<[lo := c]> (inventories h)) h).
Proof.
  intros Hc [c0 Ho] Hn.
  unfold ResourceInventory_DeepCopyInto, load_Entries, store_inventory,
    load_inventory.
  destruct (decide (li = lo)) as [-> | Hne]; simplify_map_eq/=;
    try rewrite Hn; reflexivity.
Qed.

Lemma DeepCopyInto_entries (li lo : loc) (c : InventoryCell) (s : Slice)
  (arr : list ResourceRef) (h : Heap) :
  inventories h !! li = Some c ->
  is_Some (inventories h !! lo) ->
  li <> lo ->
  c_Entries c = Some s ->
  arrays h !! s_array s = Some arr ->
  ResourceInventory_DeepCopyInto (Some li) (Some lo) h
  = Some (mkHeap (refs h)
            (<[lo := mkInventoryCell
                       (Some (mkSlice (fresh (dom (arrays h))) 0 (s_len s)
                                (s_len s)))]> (inventories h))
            (<[fresh (dom (arrays h)) := take (s_len s) (drop (s_off s) arr)]>
               (arrays h))).
Proof.
  intros Hc [c0 Ho] Hne Hs Ha.
  pose proof (fresh_array_other h (s_array s) (mk_is_Some _ _ Ha)) as Hf.
  unfold ResourceInventory_DeepCopyInto, load_Entries, store_Entries,
    store_inventory, load_inventory, make_slice, copy_slice.
  simplify_map_eq/=. simplify_map_eq/=.
  rewrite Nat.min_id.
  rewrite drop_replicate, Nat.sub_diag. simpl.
  rewrite app_nil_r.
  unfold set_arrays, set_inventories. simpl.
  rewrite !insert_insert_eq. reflexivity.
Qed.

Lemma DeepCopyInto_self (l : loc) (c : InventoryCell) (s : Slice) (h : Heap) :
  inventories h !! l = Some c ->
  c_Entries c = Some s ->
  ResourceInventory_DeepCopyInto (Some l) (Some l) h
  = Some (mkHeap (refs h)
            (<[l := mkInventoryCell
                      (Some (mkSlice (fresh (dom (arrays h))) 0 (s_len s)
                               (s_len s)))]> (inventories h))
            (<[fresh (dom (arrays h)) := replicate (s_len s) zero_ResourceRef]>
               (arrays h))).
Proof.
  intros Hc Hs.
  unfold ResourceInventory_DeepCopyInto, load_Entries, store_Entries,
    store_inventory, load_inventory, make_slice, copy_slice.
  simplify_map_eq/=. simplify_map_eq/=.
  rewrite Nat.min_id.
  rewrite drop_0, drop_replicate, Nat.sub_diag. simpl.
  rewrite app_nil_r, take_replicate, Nat.min_id.
  unfold set_arrays, set_inventories. simpl.
  rewrite !insert_insert_eq. reflexivity.
Qed.

(** The store [ResourceInventory.DeepCopy] returns, written out. *)
Lemma DeepCopy_result (li : loc) (c : InventoryCell) (h : Heap) :
  inventories h !! li = Some c ->
  entries_ok h c ->
  let out := fresh (dom (inventories h)) in
  ResourceInventory_DeepCopy (Some li) h
  = Some (Some out,
          match c_Entries c with
          | None => set_inventories (<[out := c]> (inventories h)) h
          | Some s =>
              mkHeap (refs h)
                (<[out := mkInventoryCell
                            (Some (mkSlice (fresh (dom (arrays h))) 0 (s_len s)
                                     (s_len s)))]> (inventories h))
                (<[fresh (dom (arrays h)) :=
                     default [] (slice_elems (Some s) h)]> (arrays h))
          end).
Proof.
  intros Hc Hok out.
  pose proof (fresh_inventory_other h li (mk_is_Some _ _ Hc)) as Hne.
  fold out in Hne.
  unfold ResourceInventory_DeepCopy, new_ResourceInventory. fold out.
  set (h0 := set_inventories (<[out := zero_InventoryCell]> (inventories h)) h).
  assert (Hc0 : inventories h0 !! li = Some c).
  { unfold h0. simpl. now rewrite lookup_insert_ne. }
  assert (Ho0 : is_Some (inventories h0 !! out)).
  { unfold h0. simpl. rewrite lookup_insert_eq. eauto. }
  unfold entries_ok in Hok.
  destruct (c_Entries c) as [s|] eqn:Hs.
  - destruct (slice_elems_ok h s Hok) as (arr & Ha & _ & He & _).
    rewrite (DeepCopyInto_entries li out c s arr h0 Hc0 Ho0) by
      (try exact Hs; try exact Ha; intros E; apply Hne; now symmetry).
    simpl. rewrite Ha. simpl. unfold h0. simpl.
    now rewrite insert_insert_eq.
  - rewrite (DeepCopyInto_nil_entries li out c h0 Hc0 Ho0 Hs).
    simpl. unfold h0, set_inventories. simpl.
    now rewrite insert_insert_eq.
Qed.

Lemma inventory_at_entries (l : loc) (c : InventoryCell) (s : Slice)
  (arr : list ResourceRef) (h : Heap) :
  inventories h !! l = Some c ->
  c_Entries c = Some s ->
  arrays h !! s_array s = Some arr ->
  inventory_at (Some l) h
  = Some (mkResourceInventory (take (s_len s) (drop (s_off s) arr))).
Proof.
  intros Hc Hs Ha. unfold inventory_at, load_inventory. simpl.
  rewrite Hc. simpl. rewrite Hs. simpl. rewrite Ha. reflexivity.
Qed.

Lemma inventory_at_nil (l : loc) (c : InventoryCell) (h : Heap) :
  inventories h !! l = Some c ->
  c_Entries c = None ->
  inventory_at (Some l) h = Some (mkResourceInventory []).
Proof.
  intros Hc Hs. unfold inventory_at, load_inventory. simpl.
  rewrite Hc. simpl. rewrite Hs. reflexivity.
Qed.

(** X12: [ResourceInventory.DeepCopy] of a pointer to an inventory returns
    a pointer that was not allocated before, leading to an inventory with
    the same entries; the original still shows the same entries, and the
    copy has [nil] entries exactly when the original has. *)
Theorem ResourceInventory_DeepCopy_copies (h : Heap) (li : loc)
  (c : InventoryCell) :
  inventories h !! li = Some c ->
  entries_ok h c ->
  exists out h' v,
    ResourceInventory_DeepCopy (Some li) h = Some (Some out, h') /\
    inventories h !! out = None /\
    inventory_at (Some li) h = Some v /\
    inventory_at (Some out) h' = Some v /\
    inventory_at (Some li) h' = Some v /\
    (load_Entries (Some out) h' = Some None <-> c_Entries c = None).
Proof.
  intros Hc Hok.
  pose proof (DeepCopy_result li c h Hc Hok) as Hr. cbv zeta in Hr.
  pose proof (fresh_inventory_other h li (mk_is_Some _ _ Hc)) as Hne.
  set (out := fresh (dom (inventories h))) in *.
  unfold entries_ok in Hok.
  destruct (c_Entries c) as [s|] eqn:Hs.
  - destruct (slice_elems_ok h s Hok) as (arr & Ha & Hb & He & Hlen).
    pose proof (fresh_array_other h (s_array s) (mk_is_Some _ _ Ha)) as Hf.
    rewrite He in Hr. simpl in Hr.
    eexists out, _, _. split; [exact Hr|].
    split; [apply not_elem_of_dom, is_fresh|].
    split; [exact (inventory_at_entries li c s arr h Hc Hs Ha)|].
    split; [|split].
    + erewrite inventory_at_entries;
        [| simpl; apply lookup_insert_eq | reflexivity
         | simpl; apply lookup_insert_eq ].
      simpl. rewrite drop_0, take_ge by lia. reflexivity.
    + apply (inventory_at_entries li c s arr); simpl; [|exact Hs|].
      * now rewrite lookup_insert_ne.
      * now rewrite lookup_insert_ne.
    + unfold load_Entries, load_inventory. simpl.
      rewrite lookup_insert_eq. simpl. split; discriminate.
  - eexists out, _, _. split; [exact Hr|].
    split; [apply not_elem_of_dom, is_fresh|].
    split; [exact (inventory_at_nil li c h Hc Hs)|].
    split; [|split].
    + apply (inventory_at_nil out c); [simpl; apply lookup_insert_eq | exact Hs].
    + apply (inventory_at_nil li c); [simpl | exact Hs].
      now rewrite lookup_insert_ne.
    + unfold load_Entries, load_inventory. simpl.
      rewrite lookup_insert_eq. simpl. rewrite Hs. split; reflexivity.
Qed.

Lemma ResourceInventory_DeepCopy_copies_witness :
  exists out h' v,
    ResourceInventory_DeepCopy (Some 1%positive) sample_heap
    = Some (Some out, h') /\
    inventories sample_heap !! out = None /\
    inventory_at (Some 1%positive) sample_heap = Some v /\
    inventory_at (Some out) h' = Some v /\
    inventory_at (Some 1%positive) h' = Some v /\
    (load_Entries (Some out) h' = Some None
     <-> c_Entries (mkInventoryCell (Some (mkSlice 1%positive 0 2 2))) = None).
Proof.
  apply (ResourceInventory_DeepCopy_copies sample_heap 1%positive
           (mkInventoryCell (Some (mkSlice 1%positive 0 2 2)))).
  - reflexivity.
  - exists [sample_ref_a; sample_ref_b]. simpl. split; [reflexivity | lia].
Defined.

(** X13: the copy shares no storage with what was there. Every inventory
    and every backing array allocated before [ResourceInventory.DeepCopy]
    is as it was, the [ResourceRef] cells are as they were, the entries of
    the copy sit in a backing array that was not allocated before, and a
    well formed store stays well formed. *)
Theorem ResourceInventory_DeepCopy_shares_nothing (h : Heap) (li : loc)
  (c : InventoryCell) :
  inventories h !! li = Some c ->
  entries_ok h c ->
  exists out h',
    ResourceInventory_DeepCopy (Some li) h = Some (Some out, h') /\
    refs h' = refs h /\
    (forall l, is_Some (inventories h !! l) ->
               inventories h' !! l = inventories h !! l) /\
    (forall a, is_Some (arrays h !! a) -> arrays h' !! a = arrays h !! a) /\
    (forall s', load_Entries (Some out) h' = Some (Some s') ->
                arrays h !! s_array s' = None /\ slice_ok h' s') /\
    (heap_ok h -> heap_ok h').
Proof.
  intros Hc Hok.
  pose proof (DeepCopy_result li c h Hc Hok) as Hr. cbv zeta in Hr.
  set (out := fresh (dom (inventories h))) in *.
  assert (Hfo : forall l, is_Some (inventories h !! l) -> out <> l).
  { intros l Hl. now apply fresh_inventory_other. }
  unfold entries_ok in Hok.
  destruct (c_Entries c) as [s|] eqn:Hs.
  - destruct (slice_elems_ok h s Hok) as (arr & Ha & Hb & He & Hlen).
    rewrite He in Hr. simpl in Hr.
    set (a := fresh (dom (arrays h))) in *.
    assert (Hfa : forall a', is_Some (arrays h !! a') -> a <> a').
    { intros a' Ha'. now apply fresh_array_other. }
    eexists out, _. split; [exact Hr|]. simpl.
    split; [reflexivity|].
    split; [intros l Hl; now rewrite lookup_insert_ne by auto|].
    split; [intros a' Ha'; now rewrite lookup_insert_ne by auto|].
    split.
    + intros s'. unfold load_Entries, load_inventory. simpl.
      rewrite lookup_insert_eq. simpl. intros E. inversion E; subst s'. simpl.
      split.
      * apply not_elem_of_dom. apply is_fresh.
      * eexists. simpl. rewrite lookup_insert_eq.
        split; [reflexivity|]. rewrite Hlen. lia.
    + intros Hh l c' Hl. simpl in Hl.
      assert (Hkeep : forall s0, slice_ok h s0 ->
                slice_ok (mkHeap (refs h)
                            (<[out := mkInventoryCell
                                        (Some (mkSlice a 0 (s_len s) (s_len s)))]>
                               (inventories h))
                            (<[a := take (s_len s) (drop (s_off s) arr)]>
                               (arrays h))) s0).
      { intros s0 (arr0 & Ha0 & Hl0). exists arr0. simpl.
        rewrite lookup_insert_ne by (apply Hfa; eauto). auto. }
      destruct (decide (out = l)) as [-> | Hn].
      * rewrite lookup_insert_eq in Hl. inversion Hl; subst c'.
        unfold entries_ok. simpl. eexists. simpl. rewrite lookup_insert_eq.
        split; [reflexivity|]. rewrite Hlen. lia.
      * rewrite lookup_insert_ne in Hl by exact Hn.
        specialize (Hh l c' Hl). unfold entries_ok in *.
        destruct (c_Entries c'); [now apply Hkeep | exact I].
  - eexists out, _. split; [exact Hr|]. simpl.
    split; [reflexivity|].
    split; [intros l Hl; now rewrite lookup_insert_ne by auto|].
    split; [reflexivity|].
    split.
    + intros s'. unfold load_Entries, load_inventory. simpl.
      rewrite lookup_insert_eq. simpl. rewrite Hs. discriminate.
    + intros Hh l c' Hl. simpl in Hl.
      destruct (decide (out = l)) as [-> | Hn].
      * rewrite lookup_insert_eq in Hl. inversion Hl; subst c'.
        unfold entries_ok. now rewrite Hs.
      * rewrite lookup_insert_ne in Hl by exact Hn.
        exact (Hh l c' Hl).
Qed.

Lemma ResourceInventory_DeepCopy_shares_nothing_witness :
  exists out h',
    ResourceInventory_DeepCopy (Some 1%positive) sample_heap
    = Some (Some out, h') /\
    refs h' = refs sample_heap /\
    (forall l, is_Some (inventories sample_heap !! l) ->
               inventories h' !! l = inventories sample_heap !! l) /\
    (forall a, is_Some (arrays sample_heap !! a) ->
               arrays h' !! a = arrays sample_heap !! a) /\
    (forall s', load_Entries (Some out) h' = Some (Some s') ->
                arrays sample_heap !! s_array s' = None /\ slice_ok h' s') /\
    (heap_ok sample_heap -> heap_ok h').
Proof.
  apply (ResourceInventory_DeepCopy_shares_nothing sample_heap 1%positive
           (mkInventoryCell (Some (mkSlice 1%positive 0 2 2)))).
  - reflexivity.
  - exists [sample_ref_a; sample_ref_b]. simpl. split; [reflexivity | lia].
Defined.

(** X14: the copy and the original are independent. After
    [ResourceInventory.DeepCopy], an assignment to an element of the
    entries of the copy leaves the entries of the original as they were
    before the copy, an assignment to an element of the entries of the
    original leaves the entries of the copy as they are, and every index
    within the length can be assigned in the copy. *)
Theorem ResourceInventory_DeepCopy_independent (h : Heap) (li : loc)
  (c : InventoryCell) :
  inventories h !! li = Some c ->
  entries_ok h c ->
  exists out h',
    ResourceInventory_DeepCopy (Some li) h = Some (Some out, h') /\
    (forall i v h'',
       (e ← load_Entries (Some out) h'; store_elem e i v h') = Some h'' ->
       inventory_at (Some li) h'' = inventory_at (Some li) h) /\
    (forall i v h'',
       (e ← load_Entries (Some li) h'; store_elem e i v h') = Some h'' ->
       inventory_at (Some out) h'' = inventory_at (Some out) h') /\
    (forall i v,
       (i < slice_len (c_Entries c))%nat ->
       is_Some (e ← load_Entries (Some out) h'; store_elem e i v h')).
Proof.
  intros Hc Hok.
  pose proof (DeepCopy_result li c h Hc Hok) as Hr. cbv zeta in Hr.
  pose proof (fresh_inventory_other h li (mk_is_Some _ _ Hc)) as Hne.
  set (out := fresh (dom (inventories h))) in *.
  unfold entries_ok in Hok.
  destruct (c_Entries c) as [s|] eqn:Hs.
  - destruct (slice_elems_ok h s Hok) as (arr & Ha & Hb & He & Hlen).
    pose proof (fresh_array_other h (s_array s) (mk_is_Some _ _ Ha)) as Hf.
    rewrite He in Hr. simpl in Hr.
    set (a := fresh (dom (arrays h))) in *.
    set (vals := take (s_len s) (drop (s_off s) arr)) in *.
    eexists out, _. split; [exact Hr|].
    split; [|split].
    + intros i v h''. unfold load_Entries, load_inventory, store_elem. simpl.
      rewrite lookup_insert_eq. simpl.
      destruct (decide (i < s_len s)%nat) as [Hi|]; [|discriminate].
      rewrite lookup_insert_eq. simpl.
      destruct (vals !! i) as [x|]; [|discriminate]. simpl.
      intros E; inversion E; subst h''; clear E.
      rewrite (inventory_at_entries li c s arr h Hc Hs Ha).
      apply (inventory_at_entries li c s arr); simpl; [|exact Hs|].
      * now rewrite lookup_insert_ne.
      * now rewrite !lookup_insert_ne.
    + intros i v h''. unfold load_Entries, load_inventory, store_elem. simpl.
      rewrite lookup_insert_ne by exact Hne. rewrite Hc. simpl. rewrite Hs.
      simpl.
      destruct (decide (i < s_len s)%nat) as [Hi|]; [|discriminate].
      rewrite lookup_insert_ne by exact Hf. rewrite Ha. simpl.
      destruct (arr !! (s_off s + i)%nat) as [x|]; [|discriminate]. simpl.
      intros E; inversion E; subst h''; clear E.
      transitivity
        (Some (mkResourceInventory (take (s_len s) (drop 0 vals)))).
      * apply (inventory_at_entries out
                 (mkInventoryCell (Some (mkSlice a 0 (s_len s) (s_len s))))
                 (mkSlice a 0 (s_len s) (s_len s)) vals); simpl;
          [apply lookup_insert_eq | reflexivity |].
        rewrite lookup_insert_ne by (intros E; apply Hf; now symmetry).
        apply lookup_insert_eq.
      * symmetry.
        apply (inventory_at_entries out
                 (mkInventoryCell (Some (mkSlice a 0 (s_len s) (s_len s))))
                 (mkSlice a 0 (s_len s) (s_len s)) vals); simpl;
          [apply lookup_insert_eq | reflexivity | apply lookup_insert_eq].
    + intros i v Hi. simpl in Hi.
      unfold load_Entries, load_inventory, store_elem. simpl.
      rewrite lookup_insert_eq. simpl.
      rewrite decide_True by exact Hi.
      rewrite lookup_insert_eq. simpl.
      destruct (lookup_lt_is_Some_2 vals i) as [x Hx]; [lia|].
      rewrite Hx. simpl. eauto.
  - eexists out, _. split; [exact Hr|].
    split; [|split].
    + intros i v h''. unfold load_Entries, load_inventory. simpl.
      rewrite lookup_insert_eq. simpl. rewrite Hs. discriminate.
    + intros i v h''. unfold load_Entries, load_inventory. simpl.
      rewrite lookup_insert_ne by exact Hne. rewrite Hc. simpl. rewrite Hs.
      discriminate.
    + intros i v Hi. simpl in Hi. lia.
Qed.

Lemma ResourceInventory_DeepCopy_independent_witness :
  exists out h',
    ResourceInventory_DeepCopy (Some 1%positive) sample_heap
    = Some (Some out, h') /\
    (forall i v h'',
       (e ← load_Entries (Some out) h'; store_elem e i v h') = Some h'' ->
       inventory_at (Some 1%positive) h''
       = inventory_at (Some 1%positive) sample_heap) /\
    (forall i v h'',
       (e ← load_Entries (Some 1%positive) h'; store_elem e i v h') = Some h'' ->
       inventory_at (Some out) h'' = inventory_at (Some out) h') /\
    (forall i v,
       (i < slice_len
              (c_Entries (mkInventoryCell (Some (mkSlice 1%positive 0 2 2)))))%nat ->
       is_Some (e ← load_Entries (Some out) h'; store_elem e i v h')).
Proof.
  apply (ResourceInventory_DeepCopy_independent sample_heap 1%positive
           (mkInventoryCell (Some (mkSlice 1%positive 0 2 2)))).
  - reflexivity.
  - exists [sample_ref_a; sample_ref_b]. simpl. split; [reflexivity | lia].
Defined.

(** X15: [ResourceInventory.DeepCopyInto] must not be handed its own
    receiver. With [out] the pointer [in] and entries that are not [nil],
    it returns with every entry replaced by the zero [ResourceRef]: the
    length is kept, the contents are lost; the backing arrays allocated
    before are left as they were. *)
Theorem ResourceInventory_DeepCopyInto_onto_itself (h : Heap) (l : loc)
  (c : InventoryCell) (s : Slice) :
  inventories h !! l = Some c ->
  c_Entries c = Some s ->
  exists h',
    ResourceInventory_DeepCopyInto (Some l) (Some l) h = Some h' /\
    inventory_at (Some l) h'
    = Some (mkResourceInventory (replicate (s_len s) zero_ResourceRef)) /\
    (forall a, is_Some (arrays h !! a) -> arrays h' !! a = arrays h !! a).
Proof.
  intros Hc Hs. eexists. split; [exact (DeepCopyInto_self l c s h Hc Hs)|].
  split.
  - erewrite inventory_at_entries;
      [| simpl; apply lookup_insert_eq | reflexivity
       | simpl; apply lookup_insert_eq ].
    simpl. now rewrite drop_0, take_replicate, Nat.min_id.
  - intros a Ha. simpl.
    rewrite lookup_insert_ne by (now apply fresh_array_other). reflexivity.
Qed.

Lemma ResourceInventory_DeepCopyInto_onto_itself_witness :
  exists h',
    ResourceInventory_DeepCopyInto (Some 1%positive) (Some 1%positive)
      sample_heap = Some h' /\
    inventory_at (Some 1%positive) h'
    = Some (mkResourceInventory [zero_ResourceRef; zero_ResourceRef]) /\
    (forall a, is_Some (arrays sample_heap !! a) ->
               arrays h' !! a = arrays sample_heap !! a).
Proof.
  exact (ResourceInventory_DeepCopyInto_onto_itself sample_heap 1%positive
           (mkInventoryCell (Some (mkSlice 1%positive 0 2 2)))
           (mkSlice 1%positive 0 2 2) eq_refl eq_refl).
Defined.

(** X16: [ResourceInventory.DeepCopy] of [nil] is [nil] and leaves the
    store alone; and in a well formed store [ResourceInventory.DeepCopyInto]
    panics exactly when its receiver or its argument is [nil] or does not
    point to an inventory. *)
Theorem ResourceInventory_DeepCopyInto_panics_iff (h : Heap)
  (in_ out : option loc) :
  ResourceInventory_DeepCopy None h = Some (None, h) /\
  (heap_ok h ->
   (ResourceInventory_DeepCopyInto in_ out h = None
    <-> load_inventory in_ h = None \/ load_inventory out h = None)).
Proof.
  split; [reflexivity|]. intros Hh. split.
  - intros Hn.
    destruct (load_inventory in_ h) as [c|] eqn:Hi; [|now left].
    destruct (load_inventory out h) as [c0|] eqn:Ho; [|now right].
    exfalso.
    destruct in_ as [li|]; [|discriminate Hi].
    destruct out as [lo|]; [|discriminate Ho].
    unfold load_inventory in Hi, Ho. simpl in Hi, Ho.
    destruct (c_Entries c) as [s|] eqn:Hs.
    + destruct (decide (li = lo)) as [-> | Hne].
      * rewrite (DeepCopyInto_self lo c s h Hi Hs) in Hn. discriminate Hn.
      * pose proof (Hh li c Hi) as Hok. unfold entries_ok in Hok.
        rewrite Hs in Hok. destruct Hok as (arr & Ha & _).
        rewrite (DeepCopyInto_entries li lo c s arr h Hi (mk_is_Some _ _ Ho)
                   Hne Hs Ha) in Hn.
        discriminate Hn.
    + rewrite (DeepCopyInto_nil_entries li lo c h Hi (mk_is_Some _ _ Ho) Hs)
        in Hn.
      discriminate Hn.
  - unfold ResourceInventory_DeepCopyInto.
    destruct (load_inventory in_ h) as [c|] eqn:Hi; simpl.
    + intros [Hx | Ho]; [discriminate Hx|].
      unfold store_inventory. unfold load_inventory in Ho.
      destruct out as [lo|]; simpl in *; [|reflexivity].
      rewrite Ho. reflexivity.
    + reflexivity.
Qed.

Lemma sample_heap_ok : heap_ok sample_heap.
Proof.
  intros l c Hl.
  destruct (decide (l = 1%positive)) as [-> | Hne].
  - vm_compute in Hl. inversion Hl; subst c.
    exists [sample_ref_a; sample_ref_b]. simpl. split; [reflexivity | lia].
  - unfold sample_heap in Hl. simpl in Hl.
    rewrite lookup_singleton_ne in Hl by (intros E; apply Hne; now symmetry).
    discriminate Hl.
Defined.

Lemma ResourceInventory_DeepCopyInto_panics_iff_witness :
  ResourceInventory_DeepCopyInto (Some 1%positive) (Some 2%positive) sample_heap
  = None.
Proof.
  apply (proj2 (ResourceInventory_DeepCopyInto_panics_iff sample_heap
                  (Some 1%positive) (Some 2%positive)) sample_heap_ok).
  right. reflexivity.
Defined.

(** X17: [ResourceRef.DeepCopy] of a pointer to a [ResourceRef], a cell of
    its own or an element of a backing array, returns a pointer to a cell
    that was not allocated before and holds the same value; the value
    behind the original pointer, the cells allocated before, the
    inventories and the backing arrays are as they were. *)
Theorem ResourceRef_DeepCopy_copies (h : Heap) (p : option RefPtr)
  (v : ResourceRef) :
  load_ref p h = Some v ->
  exists out h',
    ResourceRef_DeepCopy p h = Some (Some (RefCell out), h') /\
    refs h !! out = None /\
    load_ref (Some (RefCell out)) h' = Some v /\
    load_ref p h' = Some v /\
    (forall l, is_Some (refs h !! l) -> refs h' !! l = refs h !! l) /\
    inventories h' = inventories h /\
    arrays h' = arrays h.
Proof.
  intros Hv.
  assert (Hfr : refs h !! fresh (dom (refs h)) = None).
  { apply not_elem_of_dom. apply is_fresh. }
  assert (Hfo : forall l, is_Some (refs h !! l) -> fresh (dom (refs h)) <> l).
  { intros l [x Hl] E. rewrite E in Hfr. congruence. }
  destruct p as [[l | a i]|]; [| |discriminate Hv]; simpl in Hv.
  - pose proof (Hfo l (mk_is_Some _ _ Hv)) as Hne.
    exists (fresh (dom (refs h))).
    unfold ResourceRef_DeepCopy, new_ResourceRef, ResourceRef_DeepCopyInto.
    simpl. rewrite (lookup_insert_ne _ _ l) by exact Hne.
    rewrite Hv. simpl. rewrite lookup_insert_eq. simpl.
    eexists. split; [reflexivity|]. simpl.
    rewrite insert_insert_eq, lookup_insert_eq.
    rewrite (lookup_insert_ne _ _ l) by exact Hne.
    split_and!; auto.
    intros l0 Hl0. now rewrite lookup_insert_ne by auto.
  - exists (fresh (dom (refs h))).
    unfold ResourceRef_DeepCopy, new_ResourceRef, ResourceRef_DeepCopyInto.
    simpl. rewrite Hv. simpl. rewrite lookup_insert_eq. simpl.
    eexists. split; [reflexivity|]. simpl.
    rewrite insert_insert_eq, lookup_insert_eq.
    split_and!; auto.
    intros l0 Hl0. now rewrite lookup_insert_ne by auto.
Qed.

Lemma ResourceRef_DeepCopy_copies_witness :
  exists out h',
    ResourceRef_DeepCopy (Some (RefElem 1%positive 1)) sample_heap
    = Some (Some (RefCell out), h') /\
    refs sample_heap !! out = None /\
    load_ref (Some (RefCell out)) h' = Some sample_ref_b /\
    load_ref (Some (RefElem 1%positive 1)) h' = Some sample_ref_b /\
    (forall l, is_Some (refs sample_heap !! l) ->
               refs h' !! l = refs sample_heap !! l) /\
    inventories h' = inventories sample_heap /\
    arrays h' = arrays sample_heap.
Proof.
  exact (ResourceRef_DeepCopy_copies sample_heap
           (Some (RefElem 1%positive 1)) sample_ref_b eq_refl).
Defined.
